(** * codex-agent-sdk: the protocol engine, the stdout framing, the stream
      demultiplexer and the message classifier, embedded and verified.

    The development follows the Python sources module by module:

    - [Py]        the fragments of the Python runtime the code relies on
                  (string methods, truthiness, [dict.get], set membership);
    - [Errors]    [_errors.py];
    - [Parser]    [_internal/message_parser.py];
    - [Framing]   [SubprocessCLITransport._read_messages_impl];
    - [Stream]    [_internal/query.py] ([Query._read_messages] and
                  [Query.receive_messages]);
    - [Engine]    [_internal/app_server_client.py].

    Strings are sequences of code points below 256; JSON numbers are
    integers or rationals, as [json.loads] decodes them to [int] or [float].
    A decoded JSON object is an association list read by first match, which
    is how every list represents one Python [dict]. *)

From Stdlib Require Import ZArith QArith String Ascii List Bool Lia.
From Stdlib Require Import DecimalString DecimalZ.
From stdpp Require Import base gmap strings.
Import ListNotations.

Local Open Scope string_scope.
Local Open Scope list_scope.

(* ===================================================================== *)
(** * JSON values *)
(* ===================================================================== *)

#[local] Unset Elimination Schemes.

Inductive json : Type :=
| JNull
| JBool (b : bool)
| JInt (n : Z)
| JFloat (q : Q)
| JStr (s : string)
| JArr (items : list json)
| JObj (members : list (string * json)).

#[local] Set Elimination Schemes.

(** A Python [dict] decoded from JSON. *)
Abbreviation dict := (list (string * json)).

(* ===================================================================== *)
(** * The Python runtime, as far as the sources use it *)
(* ===================================================================== *)

Module Py.

(** ** [str] methods *)

(** [str.startswith] *)
Definition startswith (s p : string) : bool := String.prefix p s.

(** [str.endswith] *)
Definition endswith (s p : string) : bool :=
  String.prefix (String.rev p) (String.rev s).

(** [sub in s] for two strings *)
Fixpoint contains (s sub : string) : bool :=
  String.prefix sub s ||
  match s with
  | EmptyString => false
  | String _ s' => contains s' sub
  end.

(** [str.isspace] on one code point below 256 *)
Definition isspace (c : ascii) : bool :=
  let n := nat_of_ascii c in
  (((9 <=? n) && (n <=? 13)) || ((28 <=? n) && (n <=? 32))
   || (n =? 133) || (n =? 160))%nat.

Fixpoint lstrip (s : string) : string :=
  match s with
  | EmptyString => EmptyString
  | String c s' => if isspace c then lstrip s' else s
  end.

Definition rstrip (s : string) : string :=
  String.rev (lstrip (String.rev s)).

(** [str.strip()] *)
Definition strip (s : string) : string := rstrip (lstrip s).

Definition lower_char (c : ascii) : ascii :=
  let n := nat_of_ascii c in
  if (((65 <=? n) && (n <=? 90))
      || ((192 <=? n) && (n <=? 222) && negb (n =? 215)))%nat
  then ascii_of_nat (n + 32) else c.

(** [str.lower()] *)
Fixpoint lower (s : string) : string :=
  match s with
  | EmptyString => EmptyString
  | String c s' => String (lower_char c) (lower s')
  end.

(** [s.split(sep)] for a one-character separator; [cur] is the piece
    being read.  Python always returns at least one piece. *)
Fixpoint split_go (sep : ascii) (cur s : string) : list string :=
  match s with
  | EmptyString => [String.rev cur]
  | String c s' =>
      if Ascii.eqb c sep then String.rev cur :: split_go sep EmptyString s'
      else split_go sep (String c cur) s'
  end.

Definition split (s : string) (sep : ascii) : list string :=
  split_go sep EmptyString s.

(** [s.replace(a, b)] for one-character [a] and [b] *)
Fixpoint replace (s : string) (a b : ascii) : string :=
  match s with
  | EmptyString => EmptyString
  | String c s' => String (if Ascii.eqb c a then b else c) (replace s' a b)
  end.

(** [len(s)] *)
Definition len (s : string) : Z := Z.of_nat (String.length s).

(** [str(n)] of an integer *)
Definition str_int (n : Z) : string := NilZero.string_of_int (Z.to_int n).

(** [x in S] for a set (or tuple) [S] of strings and a string [x] *)
Definition mem (x : string) (S : list string) : bool :=
  existsb (String.eqb x) S.

(** ** Truthiness and [dict] access *)

(** [bool(v)] *)
Definition truthy (v : json) : bool :=
  match v with
  | JNull => false
  | JBool b => b
  | JInt n => negb (n =? 0)%Z
  | JFloat q => negb (Qnum q =? 0)%Z
  | JStr s => negb (String.eqb s "")
  | JArr items => match items with [] => false | _ => true end
  | JObj members => match members with [] => false | _ => true end
  end.

(** [a or b] *)
Definition or_ (a b : json) : json := if truthy a then a else b.

(** [a or b] where both are [str | None] *)
Definition or_str (a b : option string) : option string :=
  match a with
  | Some s => if String.eqb s "" then b else a
  | None => b
  end.

(** [k in d] *)
Fixpoint has_key (k : string) (d : dict) : bool :=
  match d with
  | [] => false
  | (k', _) :: rest => String.eqb k' k || has_key k rest
  end.

(** [d.get(k)]: the value, [None] when the key is absent *)
Fixpoint get (k : string) (d : dict) : json :=
  match d with
  | [] => JNull
  | (k', v) :: rest => if String.eqb k' k then v else get k rest
  end.

(** [d.get(k, default)] *)
Definition get_default (k : string) (default : json) (d : dict) : json :=
  if has_key k d then get k d else default.

(** [v if isinstance(v, str) else None] *)
Definition as_str (v : json) : option string :=
  match v with JStr s => Some s | _ => None end.

(** [v if isinstance(v, dict) else None] *)
Definition as_dict (v : json) : option dict :=
  match v with JObj d => Some d | _ => None end.


(** [v] cannot be hashed: it is a list or a dict. *)
Definition unhashable (v : json) : bool :=
  match v with JArr _ | JObj _ => true | _ => false end.

Definition is_none (v : json) : bool :=
  match v with JNull => true | _ => false end.

(** [v == s] for a string literal [s] *)
Definition eq_str (v : json) (s : string) : bool :=
  match v with JStr s' => String.eqb s' s | _ => false end.

(** [type(v).__name__] *)
Definition type_name (v : json) : string :=
  match v with
  | JNull => "NoneType"
  | JBool _ => "bool"
  | JInt _ => "int"
  | JFloat _ => "float"
  | JStr _ => "str"
  | JArr _ => "list"
  | JObj _ => "dict"
  end.

(** The builtins the sources call whose text output is fixed by CPython
    rather than by this repository: [str(v)] and [repr(v)] of an
    arbitrary value, the [.2f] float format, [json.dumps] (with and without
    [ensure_ascii]) and [json.loads] ([None] when it raises
    [JSONDecodeError]). *)
Class Runtime := {
  str : json -> string;
  repr : json -> string;
  format_2f : Q -> string;
  json_dumps : json -> string;
  json_dumps_unicode : json -> string;
  json_loads : string -> option json
}.

(** [str(v)]: a string is its own [str]. *)
Definition to_str `{Runtime} (v : json) : string :=
  match v with
  | JStr s => s
  | _ => str v
  end.

(** A small runtime on which the definitions below can be run: exact on
    [None], booleans, integers and strings, schematic on floats and
    containers; its [json.loads] decodes the empty object only. *)
Definition plain_str (v : json) : string :=
  match v with
  | JNull => "None"
  | JBool true => "True"
  | JBool false => "False"
  | JInt n => str_int n
  | JFloat _ => "<float>"
  | JStr s => s
  | JArr _ => "[...]"
  | JObj [] => "{}"
  | JObj _ => "{...}"
  end.

Definition plain_runtime : Runtime := {|
  str := plain_str;
  repr := fun v => match v with
                   | JStr s => "'" +:+ s +:+ "'"
                   | _ => plain_str v
                   end;
  format_2f := fun _ => "<float>";
  json_dumps := plain_str;
  json_dumps_unicode := plain_str;
  json_loads := fun s => if String.eqb s "{}" then Some (JObj []) else None
|}.

End Py.

(* ===================================================================== *)
(** * [_errors.py] *)
(* ===================================================================== *)

Module Errors.

(** The exception classes the modelled code raises, with the attributes
    their constructors store.  [TypeError] and [ValueError] are Python's
    own; [OtherError] stands for any other exception object handed in by
    a collaborator (a transport, a tool handler, a callback), identified
    by its [str()]. *)
Inductive exn : Type :=
| CLIConnectionError (message : string)
| RequestTimeoutError (method : string) (timeout_seconds : Q)
| ProtocolStreamError (message : string) (method : option string)
                      (payload : option dict)
| ApprovalDecisionError (message : string)
| ProcessError (message : string) (exit_code : Z) (stderr : string)
| CLIJSONDecodeError (line : string) (original_error : exn)
| MessageParseError (message : string)
| TypeError (message : string)
| ValueError (message : string)
| KeyError (key : string)
| OtherError (text : string).

Inductive result (A : Type) : Type :=
| Ok (a : A)
| Raise (e : exn).
Arguments Ok {A} a.
Arguments Raise {A} e.

Definition bind {A B} (r : result A) (k : A -> result B) : result B :=
  match r with
  | Ok a => k a
  | Raise e => Raise e
  end.

Section Str.
Context `{!Py.Runtime}.

(** [str(e)]: the message each constructor passes to [Exception]. *)
Definition str_exn (e : exn) : string :=
  match e with
  | CLIConnectionError m | ProtocolStreamError m _ _
  | ApprovalDecisionError m | MessageParseError m
  | TypeError m | ValueError m | OtherError m => m
  | KeyError k => Py.repr (JStr k)
  | RequestTimeoutError m t =>
      "Timed out waiting for app-server response for "
      +:+ Py.repr (JStr m) +:+ " after " +:+ Py.format_2f t +:+ "s."
  | ProcessError m code err =>
      let m1 := m +:+ " (exit code: " +:+ Py.str_int code +:+ ")" in
      if String.eqb err "" then m1
      else m1 +:+ String (ascii_of_nat 10) "Error output: " +:+ err
  | CLIJSONDecodeError line _ =>
      "Failed to decode JSON: " +:+ String.substring 0 100 line +:+ "..."
  end.
End Str.

End Errors.

Export Errors.

Notation "'let*' x ':=' c1 'in' c2" := (Errors.bind c1 (fun x => c2))
  (at level 10, x name, c1 at level 100, c2 at level 200,
   format "'[v' 'let*'  x  ':='  c1  'in' '/' c2 ']'").

(* ===================================================================== *)
(** * [_internal/message_parser.py] *)
(* ===================================================================== *)

Module Parser.

Definition FINAL_TYPES : list string :=
  ["result"; "final"; "done"; "completed"; "response.completed";
   "response.done"; "response.final"; "turn.completed"].

Definition FINAL_STATUSES : list string :=
  ["completed"; "done"; "finished"; "succeeded"; "success"; "failed";
   "error"; "cancelled"].

Definition ERROR_TYPES : list string := ["error"; "response.error"].

Definition ITEM_MESSAGE_TYPES : list string :=
  ["agent_message"; "assistant_message"; "assistant_message_delta";
   "assistant_message_chunk"; "assistant_message_final"; "reasoning";
   "thinking"; "user_message"].

Definition ITEM_TOOL_TYPES : list string :=
  ["command_execution"; "commandExecution"; "tool_call"; "toolCall";
   "tool_result"; "toolResult"; "fileChange"; "mcpToolCall"; "webSearch";
   "imageView"; "collabAgentToolCall"].

Definition LOG_TOKENS : list string := ["log"; "stdout"; "stderr"; "console"].

(** [EventKind] of [types.py] *)
Inductive EventKind : Type :=
| K_thread | K_turn | K_item | K_tool | K_log | K_error | K_raw.

Module CodexEvent.
Record t : Type := mk {
  kind : EventKind;
  event : dict;
  event_type : option string;
  status : option string;
  session_id : option string;
  item_type : option string
}.
End CodexEvent.

Module CodexMessage.
Record t : Type := mk {
  kind : EventKind;
  raw : dict;
  event_type : option string;
  item_type : option string;
  role : option string;
  text : option string;
  tool_name : option string;
  tool_input : option dict;
  tool_output : json;
  status : option string;
  error : option string;
  session_id : option string
}.
End CodexMessage.

(** [Message = CodexMessage | CodexEvent] *)
Inductive Message : Type :=
| IsMessage (m : CodexMessage.t)
| IsEvent (e : CodexEvent.t).

(** [x in S] where [x] is [str | None] *)
Definition mem_opt (x : option string) (S : list string) : bool :=
  match x with Some s => Py.mem s S | None => false end.

(** [x in S] for a set [S] and an arbitrary decoded value [x]: the
    lookup hashes [x], which Python refuses for lists and dicts. *)
Definition in_set (x : json) (S : list string) : result bool :=
  match x with
  | JStr s => Ok (Py.mem s S)
  | JArr _ => Raise (TypeError "unhashable type: 'list'")
  | JObj _ => Raise (TypeError "unhashable type: 'dict'")
  | _ => Ok false
  end.

(** [raw_type and p(raw_type)] *)
Definition and_type (raw_type : option string) (p : string -> bool) : bool :=
  match raw_type with
  | Some s => negb (String.eqb s "") && p s
  | None => false
  end.

Definition SESSION_KEYS : list string :=
  ["session_id"; "sessionId"; "session"; "conversation_id";
   "conversationId"; "thread_id"; "threadId"].

Definition _extract_session_id (raw : dict) : option string :=
  (fix loop (keys : list string) : option string :=
     match keys with
     | [] => None
     | key :: keys' =>
         match Py.get key raw with
         | JStr value => Some value
         | _ => loop keys'
         end
     end) SESSION_KEYS.

(** The [for item in content] loop of [_extract_text], given the
    recursive call. *)
Definition join_parts (parts : list string) : option string :=
  match parts with
  | [] => None
  | _ => Some (String.concat "" parts)
  end.

Fixpoint _extract_text (content : json) : option string :=
  match content with
  | JNull => None
  | JStr s => Some s
  | JObj members =>
      match Py.get "text" members with
      | JStr s => Some s
      | _ =>
          (fix lookup_content (d : dict) : option string :=
             match d with
             | [] => None
             | (k, v) :: rest =>
                 if String.eqb k "content" then _extract_text v
                 else lookup_content rest
             end) members
      end
  | JArr items =>
      join_parts
        ((fix loop (l : list json) : list string :=
            match l with
            | [] => []
            | item :: l' =>
                match _extract_text item with
                | Some text =>
                    if String.eqb text "" then loop l' else text :: loop l'
                | None => loop l'
                end
            end) items)
  | _ => None
  end.

(** The texts a list contributes: those of its elements that are not
    empty, in order. *)
Definition list_parts (items : list json) : list string :=
  flat_map
    (fun item =>
       match _extract_text item with
       | Some text => if String.eqb text "" then [] else [text]
       | None => []
       end) items.

Definition _get_raw_type (raw : dict) : option string :=
  Py.as_str
    (Py.or_ (Py.or_ (Py.get "type" raw) (Py.get "event" raw))
            (Py.get "kind" raw)).

Definition _is_log_type (raw_type : option string) : bool :=
  and_type raw_type (fun t => existsb (Py.contains t) LOG_TOKENS).

(** [data.get("status") if isinstance(data.get("status"), str) else None] *)
Definition status_of (d : dict) : option string :=
  Py.as_str (Py.get "status" d).

(** [v is True] *)
Definition is_True (v : json) : bool :=
  match v with JBool true => true | _ => false end.

Section Classifier.
Context `{!Py.Runtime}.

(** *** The conditions of the priority rules, in source order *)

(** [raw_type in ERROR_TYPES or status in {"error", "failed"}
     or "error" in data] *)
Definition error_shape (data : dict) : bool :=
  mem_opt (_get_raw_type data) ERROR_TYPES
  || mem_opt (status_of data) ["error"; "failed"]
  || Py.has_key "error" data.

Definition thread_type (raw_type : option string) : bool :=
  and_type raw_type (fun t => Py.startswith t "thread.").

Definition turn_type (raw_type : option string) : bool :=
  and_type raw_type (fun t => Py.startswith t "turn.").

(** [raw_type in {"item.completed", "item.started"}
     and isinstance(data.get("item"), dict)] *)
Definition item_event (data : dict) : option dict :=
  if mem_opt (_get_raw_type data) ["item.completed"; "item.started"]
  then Py.as_dict (Py.get "item" data) else None.

(** *** Rule 1: the error message *)
Definition parse_error (data : dict) : CodexMessage.t :=
  let raw_type := _get_raw_type data in
  let status := status_of data in
  let error_value := Py.get "error" data in
  let error :=
    match error_value with
    | JStr _ => error_value
    | JObj ev => Py.or_ (Py.get "message" ev) (JStr (Py.to_str error_value))
    | _ => Py.or_ (Py.or_ (Py.get "error_message" data)
                          (Py.get "errorMessage" data)) JNull
    end in
  CodexMessage.mk K_error data raw_type None None None None None JNull
    (Py.or_str status raw_type) (Py.as_str error)
    (_extract_session_id data).

(** *** Rule 5: [item.completed] / [item.started] with an item object *)
Definition ASSISTANT_ITEM_TYPES : list string :=
  ["agent_message"; "assistant_message"; "assistant_message_delta";
   "assistant_message_chunk"; "assistant_message_final"; "reasoning";
   "thinking"].

Definition item_tool_input (item : dict) : option dict :=
  match Py.get "input" item with
  | JObj d => Some d
  | _ =>
      match
        filter (fun kv => negb (Py.is_none (snd kv)))
               [("command", Py.get "command" item);
                ("args", Py.get "args" item)]
      with
      | [] => None
      | d => Some d
      end
  end.

Definition parse_item (data item : dict) : result Message :=
  let raw_type := _get_raw_type data in
  let status := status_of data in
  let session_id := _extract_session_id data in
  let item_type := Py.or_ (Py.get "type" item) (Py.get "itemType" item) in
  let item_status := status_of item in
  let role := Py.as_str (Py.get "role" item) in
  let status' := Py.or_str (Py.or_str item_status status) raw_type in
  let* is_msg := in_set item_type ITEM_MESSAGE_TYPES in
  if is_msg || Py.has_key "text" item || Py.has_key "content" item then
    let* inferred_role :=
      match role with
      | Some _ => Ok role
      | None =>
          let* a := in_set item_type ASSISTANT_ITEM_TYPES in
          Ok (if a then Some "assistant" else None)
      end in
    let inferred_role :=
      match inferred_role with
      | Some _ => inferred_role
      | None =>
          if Py.eq_str item_type "user_message" then Some "user" else None
      end in
    Ok (IsMessage
          (CodexMessage.mk K_item data raw_type (Py.as_str item_type)
             inferred_role
             (_extract_text (Py.or_ (Py.get "text" item)
                                    (Py.get "content" item)))
             None None JNull status' None session_id))
  else
    let* is_tool := in_set item_type ITEM_TOOL_TYPES in
    if is_tool
       || match item_type with
          | JStr t => Py.contains t "tool"
          | _ => false
          end
    then
      let tool_name :=
        match Py.get "name" item with
        | JStr n => Some n
        | _ => Py.as_str item_type
        end in
      let tool_output :=
        Py.or_ (Py.or_ (Py.or_ (Py.get "output" item)
                               (Py.get "result" item))
                       (Py.get "aggregated_output" item))
               (Py.get "stdout" item) in
      Ok (IsMessage
            (CodexMessage.mk K_tool data raw_type (Py.as_str item_type)
               None None tool_name (item_tool_input item) tool_output
               status' None session_id))
    else
      Ok (IsEvent
            (CodexEvent.mk K_item data raw_type status' session_id
               (Py.as_str item_type))).

(** *** Rule 6: best-effort tool detection *)
Definition detect_tool (data : dict) : json * json * json :=
  let raw_type := _get_raw_type data in
  let tool_name :=
    if and_type raw_type (fun t => Py.contains t "tool")
    then Py.or_ (Py.or_ (Py.get "tool_name" data) (Py.get "toolName" data))
                (Py.get "name" data)
    else JNull in
  let '(tool_name, tool_input, tool_output) :=
    match Py.get "tool" data with
    | JObj tool_block =>
        (Py.or_ tool_name (Py.get "name" tool_block),
         Py.or_ (Py.get "input" tool_block) (Py.get "arguments" tool_block),
         Py.or_ (Py.get "output" tool_block) (Py.get "result" tool_block))
    | _ => (tool_name, JNull, JNull)
    end in
  let tool_name :=
    if Py.is_none tool_name
    then Py.or_ (Py.get "tool_name" data) (Py.get "toolName" data)
    else tool_name in
  let tool_input :=
    if Py.is_none tool_input
    then Py.or_ (Py.or_ (Py.or_ (Py.or_ (Py.get "tool_input" data)
                                        (Py.get "toolInput" data))
                                (Py.get "input" data))
                        (Py.get "arguments" data))
                (Py.get "params" data)
    else tool_input in
  let tool_output :=
    if Py.is_none tool_output
    then Py.or_ (Py.or_ (Py.or_ (Py.get "tool_output" data)
                                (Py.get "toolOutput" data))
                        (Py.get "output" data))
                (Py.get "result" data)
    else tool_output in
  (tool_name, tool_input, tool_output).


(** *** Rule 7: [role] and [content], with the [message] block *)
Definition message_role (data : dict) : json :=
  match Py.get "message" data with
  | JObj message_block =>
      Py.or_ (Py.get "role" data) (Py.get "role" message_block)
  | _ => Py.get "role" data
  end.

Definition message_content (data : dict) : json :=
  match Py.get "message" data with
  | JObj message_block =>
      Py.or_ (Py.get "content" data) (Py.get "content" message_block)
  | _ => Py.get "content" data
  end.

(** The type of the embedded item of an [item.*] event cannot be hashed. *)
Definition item_type_unhashable (data : dict) : bool :=
  match item_event data with
  | Some item =>
      Py.unhashable (Py.or_ (Py.get "type" item) (Py.get "itemType" item))
  | None => false
  end.


(** *** The classifier *)
Definition parse_dict (data : dict) : result Message :=
  let raw_type := _get_raw_type data in
  let status := status_of data in
  let session_id := _extract_session_id data in
  (* Error detection *)
  if error_shape data then Ok (IsMessage (parse_error data))
  (* Thread/turn detection *)
  else if thread_type raw_type then
    Ok (IsEvent (CodexEvent.mk K_thread data raw_type status session_id None))
  else if turn_type raw_type then
    Ok (IsEvent (CodexEvent.mk K_turn data raw_type status session_id None))
  (* Log-like events *)
  else if _is_log_type raw_type then
    Ok (IsMessage
          (CodexMessage.mk K_log data raw_type None None
             (_extract_text
                (Py.or_ (Py.or_ (Py.or_ (Py.get "message" data)
                                        (Py.get "text" data))
                                (Py.get "content" data))
                        (Py.get "log" data)))
             None None JNull (Py.or_str status raw_type) None session_id))
  else
  (* Codex item.* events *)
  match item_event data with
  | Some item => parse_item data item
  | None =>
  (* Tool detection (best-effort) *)
  let '(tool_name, tool_input, tool_output) := detect_tool data in
  if Py.truthy tool_name || Py.truthy tool_input || Py.truthy tool_output
  then
    Ok (IsMessage
          (CodexMessage.mk K_tool data raw_type None None None
             (Py.as_str tool_name) (Py.as_dict tool_input) tool_output
             (Py.or_str status raw_type) None session_id))
  else
  (* Message detection *)
  match message_role data with
  | JStr role =>
      Ok (IsMessage
            (CodexMessage.mk K_item data raw_type None (Some role)
               (_extract_text (message_content data)) None None JNull
               (Py.or_str status raw_type) None session_id))
  | _ =>
  (* Delta detection *)
  if and_type raw_type (fun t => Py.contains t "delta")
     || Py.has_key "delta" data
  then
    let delta :=
      if negb (Py.is_none (Py.get "delta" data))
      then Py.get "delta" data else Py.get "text" data in
    Ok (IsMessage
          (CodexMessage.mk K_item data raw_type (Some "delta") None
             (_extract_text delta) None None JNull
             (Py.or_str status raw_type) None session_id))
  (* Result / completion detection *)
  else if mem_opt raw_type FINAL_TYPES || is_True (Py.get "final" data)
  then
    Ok (IsEvent
          (CodexEvent.mk K_turn data raw_type (Py.or_str status raw_type)
             session_id None))
  else if match raw_type with None => true | Some _ => false end
          && mem_opt status FINAL_STATUSES
  then
    Ok (IsEvent (CodexEvent.mk K_turn data raw_type status session_id None))
  else
    Ok (IsEvent (CodexEvent.mk K_raw data raw_type status session_id None))
  end
  end.

(** [parse_message]: any decoded value may be passed in; only a [dict]
    gets past the type check. *)
Definition parse_message (data : json) : result Message :=
  match data with
  | JObj d => parse_dict d
  | _ =>
      Raise (MessageParseError
               ("Invalid message data type (expected dict, got "
                +:+ Py.type_name data +:+ ")"))
  end.

Definition message_raw (message : Message) : dict :=
  match message with
  | IsMessage m => CodexMessage.raw m
  | IsEvent e => CodexEvent.event e
  end.

Definition message_kind (message : Message) : EventKind :=
  match message with
  | IsMessage m => CodexMessage.kind m
  | IsEvent e => CodexEvent.kind e
  end.

Definition is_error_kind (k : EventKind) : bool :=
  match k with K_error => true | _ => false end.

(** The part of [default_final_event_predicate] that looks at the raw
    object only. *)
Definition final_raw (raw : dict) : bool :=
  let raw_type := _get_raw_type raw in
  let status := status_of raw in
  if mem_opt raw_type FINAL_TYPES || is_True (Py.get "final" raw) then true
  else if turn_type raw_type
          && (and_type raw_type (fun t => Py.endswith t "completed")
              || mem_opt status FINAL_STATUSES)
  then true
  else if and_type raw_type
            (fun t => Py.startswith t "item." || Py.startswith t "thread.")
  then false
  else if mem_opt status FINAL_STATUSES
          && match raw_type with None => true | Some _ => false end
  then true
  else false.

Definition default_final_event_predicate (message : Message) : bool :=
  match message with
  | IsMessage m =>
      if is_error_kind (CodexMessage.kind m) then true
      else final_raw (CodexMessage.raw m)
  | IsEvent e => final_raw (CodexEvent.event e)
  end.

(** Classify, then ask whether the message ends the turn. *)
Definition classify_final (data : json) : result bool :=
  let* message := parse_message data in
  Ok (default_final_event_predicate message).

End Classifier.

End Parser.


(* ===================================================================== *)
(** * [SubprocessCLITransport._read_messages_impl]: stdout framing *)
(* ===================================================================== *)

Module Framing.

Definition _DEFAULT_MAX_BUFFER_SIZE : Z := 1024 * 1024.

(** [self._max_buffer_size], from [options.max_buffer_size] *)
Definition max_buffer_size_of (option_value : option Z) : Z :=
  match option_value with
  | Some n => n
  | None => _DEFAULT_MAX_BUFFER_SIZE
  end.

(** The generator's local state: the partial-JSON buffer and the objects
    yielded so far, oldest first. *)
Record reader : Type := mk_reader {
  json_buffer : string;
  yielded : list json
}.

Definition line_feed : ascii := ascii_of_nat 10.

Section Reader.
Context `{!Py.Runtime}.
Variable _max_buffer_size : Z.

(** The exception of the size check. *)
Definition buffer_overflow (buffer_length : Z) : exn :=
  CLIJSONDecodeError
    ("JSON message exceeded maximum buffer size of "
     +:+ Py.str_int _max_buffer_size +:+ " bytes")
    (ValueError
       ("Buffer size " +:+ Py.str_int buffer_length +:+ " exceeds limit "
        +:+ Py.str_int _max_buffer_size)).

(** The body of [for json_line in json_lines].  A raise hands back the
    reader as the generator leaves it. *)
Definition read_json_line (r : reader) (json_line : string)
  : reader * option exn :=
  let json_line := Py.strip json_line in
  if String.eqb json_line "" then (r, None)
  else if negb (Py.startswith json_line "{")
          && String.eqb (json_buffer r) "" then (r, None)
  else if negb (Py.startswith json_line "{") then
    (* Drop any partial buffer if a log line interleaves. *)
    (mk_reader "" (yielded r), None)
  else
    let json_buffer' := json_buffer r +:+ json_line in
    if (Py.len json_buffer' >? _max_buffer_size)%Z then
      (mk_reader "" (yielded r), Some (buffer_overflow (Py.len json_buffer')))
    else
      match Py.json_loads json_buffer' with
      | Some data => (mk_reader "" (yielded r ++ [data]), None)
      | None => (mk_reader json_buffer' (yielded r), None)
      end.

Fixpoint read_json_lines (r : reader) (json_lines : list string)
  : reader * option exn :=
  match json_lines with
  | [] => (r, None)
  | json_line :: rest =>
      match read_json_line r json_line with
      | (r', None) => read_json_lines r' rest
      | failed => failed
      end
  end.

(** The body of [async for line in self._stdout_stream]. *)
Definition read_chunk (r : reader) (line : string) : reader * option exn :=
  let line_str := Py.strip line in
  if String.eqb line_str "" then (r, None)
  else read_json_lines r (Py.split line_str line_feed).

Fixpoint read_chunks (r : reader) (chunks : list string)
  : reader * option exn :=
  match chunks with
  | [] => (r, None)
  | line :: rest =>
      match read_chunk r line with
      | (r', None) => read_chunks r' rest
      | failed => failed
      end
  end.

(** The lines the inner loop sees, over all chunks. *)
Definition json_lines_of (chunks : list string) : list string :=
  flat_map
    (fun line =>
       let line_str := Py.strip line in
       if String.eqb line_str "" then [] else Py.split line_str line_feed)
    chunks.

(** [data] was decoded from a buffer within the size limit. *)
Definition decoded_within_limit (data : json) : Prop :=
  exists buffer : string,
    Py.json_loads buffer = Some data /\ (Py.len buffer <= _max_buffer_size)%Z.

(** How iterating the stdout stream stops: exhausted, closed under the
    reader ([anyio.ClosedResourceError], swallowed), or another error. *)
Inductive stream_end : Type :=
| EndOfStream
| ClosedResource
| StreamError (e : exn).

(** [_read_messages_impl] run to its end by a consumer that takes every
    object: the objects yielded, in order, and the exception that ends the
    sequence, if any.  [connected] says that the process and its stdout
    stream exist; [wait] is the outcome of [self._process.wait()]. *)
Definition _read_messages_impl (connected : bool) (chunks : list string)
    (stop : stream_end) (wait : result Z) : list json * option exn :=
  if negb connected then ([], Some (CLIConnectionError "Not connected"))
  else
    match read_chunks (mk_reader "" []) chunks with
    | (r, Some e) => (yielded r, Some e)
    | (r, None) =>
        match stop with
        | StreamError e => (yielded r, Some e)
        | _ =>
            let returncode := match wait with Ok c => c | Raise _ => (-1)%Z end in
            if negb (returncode =? 0)%Z then
              (yielded r,
               Some (ProcessError
                       ("Command failed with exit code " +:+ Py.str_int returncode)
                       returncode "Check stderr output for details"))
            else (yielded r, None)
        end
    end.

End Reader.

End Framing.

(* ===================================================================== *)
(** * [_internal/query.py]: the stream demultiplexer *)
(* ===================================================================== *)

Module Stream.

Definition _CONTROL_KEY : string := "__codex_agent_sdk_control__".

Section Query.
Context `{!Py.Runtime}.

Definition error_marker (e : exn) : dict :=
  [(_CONTROL_KEY, JStr "error"); ("error", JStr (str_exn e))].

Definition end_marker : dict := [(_CONTROL_KEY, JStr "end")].

(** The [try] block of [Query._read_messages]: what reaches the queue from
    the transport's frames, the exception its iteration ends with (if any)
    and the [_closed] flag. *)
Fixpoint forward (_closed : bool) (frames : list dict) (failure : option exn)
  : list dict :=
  match frames with
  | [] =>
      match failure with
      | Some e => [error_marker e]
      | None => []
      end
  | message :: rest =>
      if _closed then [] else message :: forward _closed rest failure
  end.

(** [Query._read_messages]: the [finally] clause always adds the end
    marker.  The result is everything the reader puts on the queue. *)
Definition _read_messages (_closed : bool) (frames : list dict)
    (failure : option exn) : list dict :=
  forward _closed frames failure ++ [end_marker].

(** How a run of [receive_messages] stops. *)
Inductive finish : Type :=
| Stopped                (* [break] on the end marker *)
| Raised (e : exn)       (* the error marker *)
| Waiting.               (* the queue is empty and still open *)

(** [Query.receive_messages] over the queue's contents: the messages it
    yields, in order, and how it stops. *)
Fixpoint receive_messages (queue : list dict) : list dict * finish :=
  match queue with
  | [] => ([], Waiting)
  | message :: rest =>
      if Py.eq_str (Py.get _CONTROL_KEY message) "end" then ([], Stopped)
      else if Py.eq_str (Py.get _CONTROL_KEY message) "error" then
        let error_text :=
          Py.get_default "error" (JStr "Unknown error") message in
        ([], Raised (ProtocolStreamError
                       ("Query stream failed: " +:+ Py.to_str error_text)
                       None None))
      else
        let '(out, fin) := receive_messages rest in
        (message :: out, fin)
  end.

(** A frame that [receive_messages] takes for a control marker: its
    reserved key holds ["end"] or ["error"]. *)
Definition is_control (message : dict) : bool :=
  Py.eq_str (Py.get _CONTROL_KEY message) "end"
  || Py.eq_str (Py.get _CONTROL_KEY message) "error".

(** The frames ahead of the first control frame. *)
Fixpoint before_control (frames : list dict) : list dict :=
  match frames with
  | [] => []
  | message :: rest =>
      if is_control message then [] else message :: before_control rest
  end.

(** How the stream stops at a control frame. *)
Definition control_finish (message : dict) : finish :=
  if Py.eq_str (Py.get _CONTROL_KEY message) "end" then Stopped
  else
    Raised (ProtocolStreamError
              ("Query stream failed: "
               +:+ Py.to_str (Py.get_default "error" (JStr "Unknown error")
                                message))
              None None).

(** The consumer's view of a transport run. *)
Definition run (frames : list dict) (failure : option exn)
  : list dict * finish :=
  receive_messages (_read_messages false frames failure).

End Query.

End Stream.


(* ===================================================================== *)
(** * [_internal/app_server_client.py]: the bidirectional engine *)
(* ===================================================================== *)

Module Engine.

Definition _APPROVAL_DECISION_MAP : list (string * string) :=
  [("allow", "accept"); ("accept", "accept"); ("approve", "accept");
   ("approved", "accept"); ("yes", "accept"); ("y", "accept");
   ("deny", "deny"); ("denied", "deny"); ("reject", "deny");
   ("rejected", "deny"); ("block", "deny"); ("no", "deny"); ("n", "deny");
   ("defer", "defer"); ("default", "defer"); ("fallback", "defer");
   ("ask", "defer")].

(** [ApprovalDecision] of [types.py] *)
Inductive ApprovalDecision : Type := allow | deny | defer.

(** What a callback hands back: a string, a dict, [None], or a value of
    some other type (given by its type name). *)
Inductive callback_value : Type :=
| V_str (s : string)
| V_dict (d : dict)
| V_None
| V_other (type_name : string).

(** A callback is called with the request's params and may raise. *)
Definition Callback : Type := dict -> result callback_value.

(** [CodexTool] of [types.py] *)
Record CodexTool : Type := mk_tool {
  name : string;
  description : string;
  input_schema : dict;
  handler : dict -> result json
}.

(** The fields of [CodexAgentOptions] the engine reads. *)
Record CodexAgentOptions : Type := mk_options {
  ask_for_approval : option string;
  app_server_request_timeout_seconds : option Q;
  dynamic_tools : list CodexTool;
  approval_callbacks : gmap string Callback;
  approve_command : option Callback;
  approve_file_change : option Callback;
  request_user_input_callback : option Callback;
  provide_tool_input : option Callback
}.

(** The dataclass defaults. *)
Definition default_options : CodexAgentOptions :=
  mk_options None (Some (30 # 1)) [] ∅ None None None None.

(** The transport as the engine sees it: whether the channel is ready,
    and the text written to it so far, oldest first. *)
Record Transport : Type := mk_transport {
  ready : bool;
  written : list string
}.

(** Modelled from the spec: [AppServerTransport.write], whose module
    [transport/app_server.py] is not among the sources.  Section 4.1: write
    appends raw text to the outbound channel and fails with a connection
    error if the channel is not ready. *)
Definition write (t : Transport) (data : string) : result unit * Transport :=
  if ready t then (Ok tt, mk_transport (ready t) (written t ++ [data]))
  else (Raise (CLIConnectionError "Transport is not ready for writing"), t).

(** Where the [_read_loop] task stands: not started, iterating the
    transport, past its [except] clause, or past its [finally] clause. *)
Inductive loop_phase : Type := Idle | Reading | Failed | Finished.

(** The engine's mutable attributes.  An [anyio.Event] is its flag; the
    memory object stream is the list of what was sent on it, oldest
    first; [_tg] tells whether the task group exists. *)
Record AppServerClient : Type := mk_client {
  transport : Transport;
  _message_send : list dict;
  _tg : bool;
  _closed : bool;
  _request_counter : Z;
  _pending : gmap string bool;
  _pending_results : gmap string (result json);
  _read_loop_phase : loop_phase
}.

(** [{t.name: t for t in options.dynamic_tools}]: a later tool of the same
    name replaces an earlier one. *)
Definition tool_map_of (tools : list CodexTool) : gmap string CodexTool :=
  foldl (fun m t => <[name t := t]> m) ∅ tools.

(** [AppServerClient.__init__] *)
Definition init (t : Transport) : AppServerClient :=
  mk_client t [] false false 0 ∅ ∅ Idle.

(** [sorted] on strings *)
Fixpoint insert_sorted (x : string) (l : list string) : list string :=
  match l with
  | [] => [x]
  | y :: l' => if String.leb x y then x :: l else y :: insert_sorted x l'
  end.

Definition sorted (l : list string) : list string :=
  foldr insert_sorted [] l.

(** [dict.get] on a table of strings *)
Fixpoint table_get (k : string) (table : list (string * string))
  : option string :=
  match table with
  | [] => None
  | (k', v) :: rest => if String.eqb k' k then Some v else table_get k rest
  end.

Section Client.
Context `{!Py.Runtime}.
Variable options : CodexAgentOptions.

Definition _tool_map : gmap string CodexTool :=
  tool_map_of (dynamic_tools options).

Definition _request_timeout : option Q :=
  match app_server_request_timeout_seconds options with
  | None => None
  | Some timeout => if Qle_bool timeout 0 then None else Some timeout
  end.

Definition _fail_pending_requests (c : AppServerClient) (error : exn)
  : AppServerClient :=
  mk_client (transport c) (_message_send c) (_tg c) (_closed c)
    (_request_counter c)
    ((fun _ => true) <$> _pending c)
    (((fun _ => Raise error) <$> _pending c) ∪ _pending_results c)
    (_read_loop_phase c).

(** [_send]: one line of JSON text handed to the transport. *)
Definition _send (t : Transport) (payload : dict) : result unit * Transport :=
  write t (Py.json_dumps (JObj payload) +:+ String Framing.line_feed "").

(** ** Approval decisions *)

Definition _normalize_approval_decision (raw callback_name : string)
  : result ApprovalDecision :=
  match table_get (Py.lower (Py.strip raw)) _APPROVAL_DECISION_MAP with
  | None =>
      Raise (ApprovalDecisionError
               (callback_name +:+ " must return one of "
                +:+ Py.repr (JArr (map JStr
                                     (sorted (map fst _APPROVAL_DECISION_MAP))))
                +:+ "; got " +:+ Py.repr (JStr raw) +:+ "."))
  | Some normalized =>
      if String.eqb normalized "accept" then Ok allow
      else if String.eqb normalized "deny" then Ok deny
      else Ok defer
  end.

Definition _fallback_decision_from_policy : ApprovalDecision :=
  match ask_for_approval options with
  | Some policy => if String.eqb policy "never" then allow else deny
  | None => deny
  end.

(** The callback lookup at the head of [_resolve_approval_decision]. *)
Definition approval_callback (kind : string) : option Callback :=
  if String.eqb kind "command" then
    match approval_callbacks options !! "command" with
    | Some cb => Some cb
    | None =>
        match approval_callbacks options !! "command_execution" with
        | Some cb => Some cb
        | None => approve_command options
        end
    end
  else if String.eqb kind "file_change" then
    match approval_callbacks options !! "file_change" with
    | Some cb => Some cb
    | None =>
        match approval_callbacks options !! "fileChange" with
        | Some cb => Some cb
        | None => approve_file_change options
        end
    end
  else None.

(** The outcome is a decision or a dict to pass through ([inr]). *)
Definition _resolve_approval_decision (kind : string) (params : dict)
    (callback_name : string) : result (ApprovalDecision + dict) :=
  match approval_callback kind with
  | None => Ok (inl _fallback_decision_from_policy)
  | Some callback =>
      let* value := callback params in
      match value with
      | V_dict d => Ok (inr d)
      | V_None => Ok (inl _fallback_decision_from_policy)
      | V_str s =>
          let* decision := _normalize_approval_decision s callback_name in
          match decision with
          | defer => Ok (inl _fallback_decision_from_policy)
          | _ => Ok (inl decision)
          end
      | V_other type_name =>
          Raise (ApprovalDecisionError
                   (callback_name +:+ " must return str, dict, or None; got "
                    +:+ type_name +:+ "."))
      end
  end.

(** The reply of an approval handler, given the two words of its wire
    vocabulary. *)
Definition approval_reply (yes no : string)
    (resolved : ApprovalDecision + dict) : dict :=
  match resolved with
  | inr d => d
  | inl allow => [("decision", JStr yes)]
  | inl _ => [("decision", JStr no)]
  end.

Definition _handle_command_approval (params : dict) : result dict :=
  let* resolved :=
    _resolve_approval_decision "command" params "command approval callback" in
  Ok (approval_reply "accept" "deny" resolved).

Definition _handle_file_change_approval (params : dict) : result dict :=
  let* resolved :=
    _resolve_approval_decision "file_change" params
      "file change approval callback" in
  Ok (approval_reply "accept" "deny" resolved).

Definition _handle_legacy_approval (method : string) (params : dict)
  : result dict :=
  let kind :=
    if String.eqb method "execCommandApproval" then "command"
    else "file_change" in
  let* resolved :=
    _resolve_approval_decision kind params (method +:+ " approval callback") in
  Ok (approval_reply "approved" "denied" resolved).

(** ** Dynamic tools and user input *)

(** The text blocks of a [content] list. *)
Fixpoint text_parts (content : list json) : list string :=
  match content with
  | [] => []
  | JObj item :: rest =>
      if Py.eq_str (Py.get "type" item) "text" then
        match Py.get "text" item with
        | JStr text => text :: text_parts rest
        | _ => text_parts rest
        end
      else text_parts rest
  | _ :: rest => text_parts rest
  end.

Definition _normalize_tool_output (value : json) : string :=
  match value with
  | JStr s => s
  | JObj d =>
      if Py.has_key "content" d then
        match Py.get "content" d with
        | JArr content =>
            match text_parts content with
            | [] => Py.json_dumps_unicode value
            | parts => String.concat (String Framing.line_feed "") parts
            end
        | _ => Py.json_dumps_unicode value
        end
      else Py.json_dumps_unicode value
  | _ => Py.json_dumps_unicode value
  end.

Definition _handle_dynamic_tool_call (params : dict) : result dict :=
  match Py.get "tool" params with
  | JStr tool_name =>
      match _tool_map !! tool_name with
      | None =>
          Ok [("success", JBool false);
              ("output", JStr ("Unknown tool: " +:+ tool_name))]
      | Some tool =>
          let args :=
            match Py.get "arguments" params with
            | JObj a => a
            | _ => []
            end in
          match handler tool args with
          | Ok value =>
              Ok [("success", JBool true);
                  ("output", JStr (_normalize_tool_output value))]
          | Raise e =>
              Ok [("success", JBool false); ("output", JStr (str_exn e))]
          end
      end
  | _ => Raise (CLIConnectionError "Dynamic tool call missing tool name")
  end.

(** The key under which [question_id] ends up in the reply. *)
Definition answer_key (question_id : json) : result string :=
  match question_id with
  | JStr s => Ok s
  | JArr _ => Raise (TypeError "unhashable type: 'list'")
  | JObj _ => Raise (TypeError "unhashable type: 'dict'")
  | v => Ok (Py.json_dumps v)
  end.

Definition _handle_tool_user_input (params : dict) : result dict :=
  let callback :=
    match request_user_input_callback options with
    | Some cb => Some cb
    | None => provide_tool_input options
    end in
  match callback with
  | Some cb =>
      let* answer := cb params in
      match answer with
      | V_dict d => Ok [("answers", JObj d)]
      | V_str s =>
          let* key := answer_key (Py.or_ (Py.get "questionId" params)
                                         (JStr "question")) in
          Ok [("answers", JObj [(key, JObj [("answers", JArr [JStr s])])])]
      | V_None =>
          Raise (TypeError
                   "request_user_input_callback must return str or dict, got NoneType.")
      | V_other type_name =>
          Raise (TypeError
                   ("request_user_input_callback must return str or dict, got "
                    +:+ type_name +:+ "."))
      end
  | None => Ok [("answers", JObj [])]
  end.

(** ** Server requests *)

(** The [try] block of [_handle_server_request] up to the write: the
    handler chosen by [method], or the unsupported-method envelope. *)
Definition server_reply (request_id : string) (method : json) (params : dict)
  : result dict :=
  let reply (r : result dict) : result dict :=
    let* value := r in
    Ok [("id", JStr request_id); ("result", JObj value)] in
  if Py.eq_str method "item/tool/call" then
    reply (_handle_dynamic_tool_call params)
  else if Py.eq_str method "item/tool/requestUserInput" then
    reply (_handle_tool_user_input params)
  else if Py.eq_str method "item/commandExecution/requestApproval" then
    reply (_handle_command_approval params)
  else if Py.eq_str method "item/fileChange/requestApproval" then
    reply (_handle_file_change_approval params)
  else
    match method with
    | JStr m =>
        if Py.mem m ["execCommandApproval"; "applyPatchApproval"] then
          reply (_handle_legacy_approval m params)
        else
          Ok [("id", JStr request_id);
              ("error", JObj [("code", JInt (-32601));
                              ("message",
                               JStr ("Method " +:+ Py.to_str method
                                     +:+ " not supported"))])]
    | JArr _ => Raise (TypeError "unhashable type: 'list'")
    | JObj _ => Raise (TypeError "unhashable type: 'dict'")
    | _ =>
        Ok [("id", JStr request_id);
            ("error", JObj [("code", JInt (-32601));
                            ("message",
                             JStr ("Method " +:+ Py.to_str method
                                   +:+ " not supported"))])]
    end.

Definition _handle_server_request (t : Transport) (message : dict)
  : result unit * Transport :=
  let request_id := Py.to_str (Py.get "id" message) in
  let method := Py.get "method" message in
  let params :=
    match Py.get "params" message with
    | JObj p => p
    | _ => []
    end in
  let attempt :=
    match server_reply request_id method params with
    | Ok envelope => _send t envelope
    | Raise e => (Raise e, t)
    end in
  match attempt with
  | (Raise e, t') =>
      _send t' [("id", JStr request_id);
                ("error", JObj [("code", JInt (-32603));
                                ("message", JStr (str_exn e))])]
  | done => done
  end.

(** ** The dispatch loop *)

(** What one stretch of [_read_loop] does besides changing the engine:
    a debug log line, or a handler task started on the task group. *)
Inductive effect : Type :=
| Logged_unexpected (request_id : string)
| Started_handler (message : dict).

(** The stretches of [_read_loop] between two suspension points: the loop
    body for one frame, the [except Exception] clause, the [finally]
    clause. *)
Inductive segment : Type :=
| Frame (message : dict)
| Except (e : exn)
| Finally.

Definition send_message (c : AppServerClient) (message : dict)
  : AppServerClient :=
  mk_client (transport c) (_message_send c ++ [message]) (_tg c) (_closed c)
    (_request_counter c) (_pending c) (_pending_results c)
    (_read_loop_phase c).

Definition set_phase (c : AppServerClient) (phase : loop_phase)
  : AppServerClient :=
  mk_client (transport c) (_message_send c) (_tg c) (_closed c)
    (_request_counter c) (_pending c) (_pending_results c) phase.

(** [{"type": event_type, **params}] *)
Definition _normalize_notification (message : dict) : dict :=
  match Py.get "method" message, Py.get "params" message with
  | JStr method, JObj params =>
      let event_type := Py.replace method "/" "." in
      ("type",
       if Py.has_key "type" params then Py.get "type" params
       else JStr event_type)
      :: filter (fun kv => negb (String.eqb (fst kv) "type")) params
  | _, _ => message
  end.

(** The error stored for a reply that carries [error]. *)
Definition error_response (message : dict) : exn :=
  ProtocolStreamError "App-server returned an error response."
    (Py.as_str (Py.get "method" message))
    (Py.as_dict (Py.get "error" message)).

(** [message] is a response: it has [id] and one of [result], [error]. *)
Definition is_response (message : dict) : bool :=
  Py.has_key "id" message
  && (Py.has_key "result" message || Py.has_key "error" message).

(** The body of [async for message in self.transport.read_messages()],
    after the [_closed] check. *)
Definition dispatch (c : AppServerClient) (message : dict)
  : AppServerClient * list effect :=
  (* Response to our request *)
  if is_response message then
    let request_id := Py.to_str (Py.get "id" message) in
    match _pending c !! request_id with
    | None => (c, [Logged_unexpected request_id])
    | Some _ =>
        let outcome :=
          if Py.has_key "error" message then Raise (error_response message)
          else Ok (Py.get_default "result" (JObj []) message) in
        (mk_client (transport c) (_message_send c) (_tg c) (_closed c)
           (_request_counter c)
           (<[request_id := true]> (_pending c))
           (<[request_id := outcome]> (_pending_results c))
           (_read_loop_phase c), [])
    end
  (* Server requests *)
  else if Py.has_key "method" message && Py.has_key "id" message then
    (c, if _tg c then [Started_handler message] else [])
  (* Server notifications *)
  else if Py.has_key "method" message then
    (send_message c (_normalize_notification message), [])
  (* Fallback *)
  else (send_message c message, []).

(** The [finally] clause of [_read_loop]. *)
Definition finally (c : AppServerClient) : AppServerClient :=
  let c1 :=
    if decide (_pending c = ∅) then c
    else _fail_pending_requests c
           (CLIConnectionError "App-server connection closed before response.")
  in
  set_phase (send_message c1 Stream.end_marker) Finished.

(** One stretch of the loop.  A frame met with [_closed] set breaks out
    of the loop, into [finally]. *)
Definition read_loop_step (c : AppServerClient) (seg : segment)
  : AppServerClient * list effect :=
  match _read_loop_phase c, seg with
  | Reading, Frame message =>
      if _closed c then (finally c, []) else dispatch c message
  | Reading, Except e =>
      (set_phase (send_message (_fail_pending_requests c e)
                               (Stream.error_marker e)) Failed, [])
  | Reading, Finally | Failed, Finally => (finally c, [])
  | _, _ => (c, [])
  end.

(** ** Requests *)

(** The head of [_send_request]: a fresh id, its event, the payload. *)
Definition register (c : AppServerClient) (method : string)
    (params : option dict) : AppServerClient * string * dict :=
  let counter := (_request_counter c + 1)%Z in
  let request_id := "req_" +:+ Py.str_int counter in
  let payload :=
    [("id", JStr request_id); ("method", JStr method)]
    ++ match params with
       | Some p => [("params", JObj p)]
       | None => []
       end in
  (mk_client (transport c) (_message_send c) (_tg c) (_closed c) counter
     (<[request_id := false]> (_pending c)) (_pending_results c)
     (_read_loop_phase c),
   request_id, payload).

Definition event_is_set (c : AppServerClient) (request_id : string) : bool :=
  match _pending c !! request_id with
  | Some flag => flag
  | None => false
  end.

(** [await event.wait()] against the stretches of [_read_loop] that run
    while the caller is suspended (up to the deadline, when there is one):
    the caller resumes after the first stretch that sets its event. *)
Fixpoint wait (c : AppServerClient) (request_id : string)
    (schedule : list segment) : AppServerClient * list effect * bool :=
  if event_is_set c request_id then (c, [], true)
  else
    match schedule with
    | [] => (c, [], false)
    | seg :: rest =>
        let '(c1, effects1) := read_loop_step c seg in
        let '(c2, effects2, woken) := wait c1 request_id rest in
        (c2, effects1 ++ effects2, woken)
    end.

(** A stretch of the loop that is the dispatch of a frame other than a
    response bearing [request_id]. *)
Definition silent_for (request_id : string) (seg : segment) : bool :=
  match seg with
  | Frame message =>
      negb (is_response message
            && String.eqb (Py.to_str (Py.get "id" message)) request_id)
  | _ => false
  end.

(** The caller of [request_id] is suspended on an engine that is not
    closed: its event is registered and not set. *)
Definition suspended (c : AppServerClient) (request_id : string) : Prop :=
  _pending c !! request_id = Some false /\ _closed c = false.

(** Both [pop]s of a request id. *)
Definition forget (c : AppServerClient) (request_id : string)
  : AppServerClient :=
  mk_client (transport c) (_message_send c) (_tg c) (_closed c)
    (_request_counter c) (delete request_id (_pending c))
    (delete request_id (_pending_results c)) (_read_loop_phase c).

Definition set_transport (c : AppServerClient) (t : Transport)
  : AppServerClient :=
  mk_client t (_message_send c) (_tg c) (_closed c) (_request_counter c)
    (_pending c) (_pending_results c) (_read_loop_phase c).

(** How a call of [_send_request] ends: with a value, with an exception,
    or never (no timeout and no completion). *)
Inductive call_outcome : Type :=
| Returned (value : json)
| Raised (e : exn)
| Blocked.

Definition _send_request (c : AppServerClient) (method : string)
    (params : option dict) (schedule : list segment)
  : AppServerClient * list effect * call_outcome :=
  let '(c1, request_id, payload) := register c method params in
  match _send (transport c1) payload with
  | (Raise e, t) => (set_transport c1 t, [], Raised e)
  | (Ok _, t) =>
      let '(c2, effects, woken) :=
        wait (set_transport c1 t) request_id schedule in
      if woken then
        match _pending_results c2 !! request_id with
        | None => (c2, effects, Raised (KeyError request_id))
        | Some (Ok value) => (forget c2 request_id, effects, Returned value)
        | Some (Raise e) => (forget c2 request_id, effects, Raised e)
        end
      else
        match _request_timeout with
        | Some timeout =>
            (forget c2 request_id, effects,
             Raised (RequestTimeoutError method timeout))
        | None => (c2, effects, Blocked)
        end
  end.

(** The head of [start]: the task group exists and [_read_loop] runs. *)
Definition start_read_loop (c : AppServerClient) : AppServerClient :=
  mk_client (transport c) (_message_send c) true (_closed c)
    (_request_counter c) (_pending c) (_pending_results c) Reading.

End Client.

End Engine.


(* ===================================================================== *)
(** * [client.py]: the session bookkeeping of [CodexSDKClient] *)
(* ===================================================================== *)

Module SDKClient.

Import Parser.

(** [getattr(event, "session_id", None)] *)
Definition session_id_of (event : Message) : option string :=
  match event with
  | IsMessage m => CodexMessage.session_id m
  | IsEvent e => CodexEvent.session_id e
  end.

(** [event.event_type] *)
Definition event_type_of (event : Message) : option string :=
  match event with
  | IsMessage m => CodexMessage.event_type m
  | IsEvent e => CodexEvent.event_type e
  end.

(** The keys [_update_session_id] scans, in its own order. *)
Definition SESSION_ID_KEYS : list string :=
  ["session_id"; "sessionId"; "session"; "conversation_id";
   "conversationId"; "thread_id"; "threadId"].

(** The [for key in [...]] loop of [_update_session_id]. *)
Fixpoint scan_session_keys (keys : list string) (raw : dict)
  : option string :=
  match keys with
  | [] => None
  | key :: keys' =>
      match Py.get key raw with
      | JStr value => Some value
      | _ => scan_session_keys keys' raw
      end
  end.

(** [_update_session_id]: the new value of [_last_session_id]. *)
Definition _update_session_id (_last_session_id : option string)
    (event : Message) : option string :=
  match session_id_of event with
  | Some session_id => Some session_id
  | None =>
      match
        scan_session_keys SESSION_ID_KEYS
          (match event with
           | IsMessage m => CodexMessage.raw m
           | IsEvent e => CodexEvent.event e
           end)
      with
      | Some value => Some value
      | None => _last_session_id
      end
  end.

(** [_resolve_model] *)
Definition _resolve_model (model _session_model options_model : option string)
  : option string :=
  match model with
  | Some _ => model
  | None =>
      match _session_model with
      | Some _ => _session_model
      | None => options_model
      end
  end.

(** The loop of [receive_response]: events are passed on up to and
    including the first one the predicate accepts. *)
Fixpoint receive_response {A : Type} (predicate : A -> bool)
    (stream : list A) : list A :=
  match stream with
  | [] => []
  | event :: rest =>
      event :: (if predicate event then []
                else receive_response predicate rest)
  end.

End SDKClient.

(* ===================================================================== *)
(** * Invariants of the modelled state *)
(* ===================================================================== *)

Module Invariants.

(** What the partial-JSON buffer may hold between two lines: nothing, or
    text that starts with [{] and is within the size limit. *)
Definition buffer_ok (limit : Z) (json_buffer : string) : Prop :=
  json_buffer = ""
  \/ (Py.startswith json_buffer "{" = true /\ (Py.len json_buffer <= limit)%Z).


End Invariants.

(* ===================================================================== *)
(** * [SubprocessCLITransport]: the write side *)
(* ===================================================================== *)

Module Subprocess.

(** The pipe to the child's stdin: the text it received, oldest first, and
    the failure of the operating system's side, if one is due: after
    [n] more sends, a send raises [e]. *)
Record Pipe : Type := mk_pipe {
  received : list string;
  fault : option (nat * exn)
}.

(** [await self._stdin_stream.send(data)] *)
Definition send (p : Pipe) (data : string) : result unit * Pipe :=
  match fault p with
  | Some (0, e) => (Raise e, p)
  | Some (S n, e) => (Ok tt, mk_pipe (received p ++ [data]) (Some (n, e)))
  | None => (Ok tt, mk_pipe (received p ++ [data]) None)
  end.

(** The attributes of the transport that writing reads and changes.
    [_process] is [None] without a process and holds the process's return
    code ([None] while it runs) otherwise; [_stdin_stream] tells whether
    the text stream over the pipe exists. *)
Record SubprocessCLITransport : Type := mk_transport {
  _ready : bool;
  _stdin_stream : bool;
  stdin : Pipe;
  _process : option (option Z);
  _exit_error : option exn
}.

Section Write.
Context `{!Py.Runtime}.

(** [write] *)
Definition write (t : SubprocessCLITransport) (data : string)
  : result unit * SubprocessCLITransport :=
  if negb (_ready t) || negb (_stdin_stream t) then
    (Raise (CLIConnectionError "Transport is not ready for writing"), t)
  else
    match _process t, _exit_error t with
    | Some (Some returncode), _ =>
        (Raise (CLIConnectionError
                  ("Cannot write to terminated process (exit code: "
                   +:+ Py.str_int returncode +:+ ")")), t)
    | _, Some exit_error =>
        (Raise (CLIConnectionError
                  ("Cannot write to process that exited with error: "
                   +:+ str_exn exit_error)), t)
    | _, None =>
        match send (stdin t) data with
        | (Ok _, p) =>
            (Ok tt,
             mk_transport (_ready t) (_stdin_stream t) p (_process t)
               (_exit_error t))
        | (Raise e, p) =>
            let error :=
              CLIConnectionError
                ("Failed to write to process stdin: " +:+ str_exn e) in
            (Raise error,
             mk_transport false (_stdin_stream t) p (_process t) (Some error))
        end
    end.

(** The conditions under which [write] gets as far as a successful
    [send]. *)
Definition accepts (p : Pipe) : bool :=
  match fault p with
  | Some (0, _) => false
  | _ => true
  end.

Definition exited (t : SubprocessCLITransport) : bool :=
  match _process t with
  | Some (Some _) => true
  | _ => false
  end.

Definition writable (t : SubprocessCLITransport) : bool :=
  _ready t && _stdin_stream t && negb (exited t)
  && match _exit_error t with None => true | Some _ => false end
  && accepts (stdin t).

(** [end_input]: closing the stream is wrapped in [suppress(Exception)]. *)
Definition end_input (t : SubprocessCLITransport) : SubprocessCLITransport :=
  if _stdin_stream t then
    mk_transport (_ready t) false (stdin t) (_process t) (_exit_error t)
  else t.

(** [close], as far as the attributes above go. *)
Definition close (t : SubprocessCLITransport) : SubprocessCLITransport :=
  match _process t with
  | None =>
      mk_transport false (_stdin_stream t) (stdin t) None (_exit_error t)
  | Some _ => mk_transport false false (stdin t) None None
  end.

(** [is_ready] *)
Definition is_ready (t : SubprocessCLITransport) : bool := _ready t.

(** ** [Query.stream_input] over this transport *)

(** What [stream_input] writes for one chunk: [json.dumps] of a dict,
    [str] of anything else. *)
Definition chunk_text (message : json) : string :=
  match message with
  | JObj _ => Py.json_dumps message
  | _ => Py.to_str message
  end.

(** The [async for message in stream] loop: [_closed] breaks out of it, a
    failed write leaves it by the exception. *)
Fixpoint stream_chunks (_closed : bool) (t : SubprocessCLITransport)
    (stream : list json) : result unit * SubprocessCLITransport :=
  match stream with
  | [] => (Ok tt, t)
  | message :: rest =>
      if _closed then (Ok tt, t)
      else
        match write t (chunk_text message) with
        | (Ok _, t') => stream_chunks _closed t' rest
        | failed => failed
        end
  end.

(** [stream_input]: the exception of a failed write is logged and dropped,
    and [end_input] is then not reached. *)
Definition stream_input (_closed : bool) (t : SubprocessCLITransport)
    (stream : list json) : SubprocessCLITransport :=
  match stream_chunks _closed t stream with
  | (Ok _, t') => end_input t'
  | (Raise _, t') => t'
  end.

End Write.

End Subprocess.

(* ===================================================================== *)
(** * [app_server_client.py]: the loop as a whole, and the consumer *)
(* ===================================================================== *)

Module AppServer.

Import Engine.

(** A text block of a tool result's [content] list. *)
Definition text_block (text : string) : json :=
  JObj [("type", JStr "text"); ("text", JStr text)].

(** The two shapes of a reply. *)
Definition result_envelope (request_id : string) (value : dict) : dict :=
  [("id", JStr request_id); ("result", JObj value)].

Definition error_envelope (request_id : string) (code : Z)
    (message : string) : dict :=
  [("id", JStr request_id);
   ("error", JObj [("code", JInt code); ("message", JStr message)])].

(** The request id issued when the counter stood at [k - 1]. *)
Definition request_id_of (k : Z) : string := "req_" +:+ Py.str_int k.

(** The counter has not gone below zero, and every entry of the pending
    table belongs to an id issued so far. *)
Definition pending_issued (c : AppServerClient) : Prop :=
  (0 <= _request_counter c)%Z
  /\ forall request_id : string,
       is_Some (_pending c !! request_id) ->
       exists k : Z,
         (1 <= k <= _request_counter c)%Z /\ request_id = request_id_of k.

Section Loop.
Context `{!Py.Runtime}.

(** What the dispatch of one frame sends to the consumer's queue. *)
Definition queued (message : dict) : list dict :=
  if is_response message then []
  else if Py.has_key "method" message && Py.has_key "id" message then []
  else if Py.has_key "method" message then [_normalize_notification message]
  else [message].

(** [_read_loop] over a run of stretches: the engine afterwards and all
    the effects, in order. *)
Fixpoint read_loop (c : AppServerClient) (segments : list segment)
  : AppServerClient * list effect :=
  match segments with
  | [] => (c, [])
  | seg :: rest =>
      let '(c1, effects1) := read_loop_step c seg in
      let '(c2, effects2) := read_loop c1 rest in
      (c2, effects1 ++ effects2)
  end.

(** The [async for message in self._message_receive] loop of
    [run_query], over the queue's contents: what it yields and how it
    stops. *)
Fixpoint receive (queue : list dict) : list dict * Stream.finish :=
  match queue with
  | [] => ([], Stream.Waiting)
  | message :: rest =>
      if Py.eq_str (Py.get Stream._CONTROL_KEY message) "end"
      then ([], Stream.Stopped)
      else if Py.eq_str (Py.get Stream._CONTROL_KEY message) "error" then
        ([], Stream.Raised
               (ProtocolStreamError
                  ("App-server stream failed: "
                   +:+ Py.to_str (Py.get_default "error"
                                    (JStr "Unknown error") message))
                  None None))
      else
        let '(out, fin) := receive rest in
        (message :: out, fin)
  end.

End Loop.

End AppServer.

(* ===================================================================== *)
(** * Facts about the Python fragments *)
(* ===================================================================== *)

Module PyFacts.

Lemma prefix_cons (a : ascii) (p t : string) :
  String.prefix (String a p) t = true ->
  exists t', t = String a t' /\ String.prefix p t' = true.
Proof.
  destruct t as [|b t']; simpl; [discriminate|].
  destruct (ascii_dec a b) as [->|]; [|discriminate].
  intros Hp. exists t'. split; [reflexivity | exact Hp].
Qed.

(** Two prefixes of one string are comparable. *)
Lemma startswith_comparable (t p q : string) :
  Py.startswith t p = true -> Py.startswith t q = true ->
  String.prefix p q = true \/ String.prefix q p = true.
Proof.
  unfold Py.startswith. revert t q.
  induction p as [|a p IH]; intros t q Hp Hq; [left; destruct q; reflexivity|].
  destruct q as [|b q]; [right; reflexivity|].
  apply prefix_cons in Hp as (t1 & -> & Hp).
  apply prefix_cons in Hq as (t2 & Heq & Hq).
  injection Heq as -> ->.
  destruct (IH _ _ Hp Hq) as [H|H]; [left | right];
    simpl; destruct (ascii_dec b b); congruence.
Qed.

Lemma startswith_nonempty (t p : string) :
  Py.startswith t p = true -> p <> "" -> String.eqb t "" = false.
Proof.
  unfold Py.startswith. destruct p as [|a p]; [congruence|].
  intros Hp _. apply prefix_cons in Hp as (t' & -> & _). reflexivity.
Qed.

Lemma mem_In (x : string) (S : list string) :
  Py.mem x S = true -> In x S.
Proof.
  unfold Py.mem. rewrite existsb_exists.
  intros (y & Hy & Heq). apply String.eqb_eq in Heq. congruence.
Qed.

Lemma or_truthy (a b : json) : Py.truthy a = true -> Py.or_ a b = a.
Proof. unfold Py.or_. intros ->. reflexivity. Qed.

Lemma or_falsy (a b : json) : Py.truthy a = false -> Py.or_ a b = b.
Proof. unfold Py.or_. intros ->. reflexivity. Qed.

Lemma has_key_get_none (k : string) (d : dict) :
  Py.has_key k d = false -> Py.get k d = JNull.
Proof.
  induction d as [|[k' v] d IH]; simpl; [reflexivity|].
  destruct (String.eqb k' k); simpl; [discriminate | exact IH].
Qed.

End PyFacts.


(* ===================================================================== *)
(** * The classifier *)
(* ===================================================================== *)

Module ParserFacts.

Import Parser.

Section Facts.
Context `{!Py.Runtime}.

(** ** [_extract_text], equation by equation *)

Lemma extract_text_str (s : string) : _extract_text (JStr s) = Some s.
Proof. reflexivity. Qed.

Lemma extract_text_dict_text (d : dict) (s : string) :
  Py.get "text" d = JStr s -> _extract_text (JObj d) = Some s.
Proof. simpl. intros ->. reflexivity. Qed.

Lemma extract_text_dict_content (d : dict) :
  Py.as_str (Py.get "text" d) = None ->
  _extract_text (JObj d) =
    if Py.has_key "content" d then _extract_text (Py.get "content" d)
    else None.
Proof.
  intros Htext.
  transitivity
    ((fix lookup_content (d : dict) : option string :=
        match d with
        | [] => None
        | (k, v) :: rest =>
            if String.eqb k "content" then _extract_text v
            else lookup_content rest
        end) d).
  - simpl. destruct (Py.get "text" d); try reflexivity. discriminate.
  - clear Htext. induction d as [|[k v] d IH]; [reflexivity|].
    simpl Py.has_key. simpl Py.get.
    destruct (String.eqb k "content"); simpl; [reflexivity | exact IH].
Qed.

Lemma extract_text_list (items : list json) :
  _extract_text (JArr items) = join_parts (list_parts items).
Proof.
  simpl. f_equal. induction items as [|item items IH]; [reflexivity|].
  simpl. rewrite IH.
  destruct (_extract_text item) as [text|]; [|reflexivity].
  destruct (String.eqb text ""); reflexivity.
Qed.

(** ** The raw type *)

Lemma raw_type_of_type (data : dict) (t : string) :
  Py.get "type" data = JStr t -> String.eqb t "" = false ->
  _get_raw_type data = Some t.
Proof.
  intros Ht Hne. unfold _get_raw_type. rewrite Ht.
  assert (Htr : Py.truthy (JStr t) = true) by (simpl; rewrite Hne; reflexivity).
  rewrite (PyFacts.or_truthy (JStr t)) by exact Htr.
  rewrite PyFacts.or_truthy by exact Htr. reflexivity.
Qed.

Lemma final_type_prefix (t p : string) :
  Py.mem t FINAL_TYPES = true -> Py.startswith t p = true ->
  existsb (fun f => Py.startswith f p) FINAL_TYPES = true.
Proof.
  intros Hm Hp. apply existsb_exists. exists t.
  split; [apply PyFacts.mem_In, Hm | exact Hp].
Qed.

(** ** What every returned message carries *)

Lemma parse_item_ok (data item : dict) (m : Message) :
  parse_item data item = Ok m ->
  message_raw m = data /\ is_error_kind (message_kind m) = false.
Proof.
  unfold parse_item, Errors.bind. intros Hm.
  repeat case_match; simplify_eq; split; reflexivity.
Qed.

Lemma parse_dict_ok (data : dict) (m : Message) :
  parse_dict data = Ok m ->
  message_raw m = data
  /\ (error_shape data = false -> is_error_kind (message_kind m) = false).
Proof.
  unfold parse_dict. intros Hm.
  destruct (error_shape data) eqn:Herr.
  { injection Hm as <-. split; [reflexivity | discriminate]. }
  repeat case_match; simplify_eq;
    try (split; [reflexivity | intros _; reflexivity]).
  apply parse_item_ok in Hm as [Hraw Hkind]. split; [exact Hraw | auto].
Qed.

(** ** The terminal predicate on the raw object *)

Lemma final_raw_turn_completed (data : dict) (t : string) :
  _get_raw_type data = Some t ->
  Py.startswith t "turn." = true -> Py.endswith t "completed" = true ->
  final_raw data = true.
Proof.
  intros Ht Hturn Hend. unfold final_raw. rewrite Ht.
  destruct (mem_opt (Some t) FINAL_TYPES || is_True (Py.get "final" data));
    [reflexivity|].
  unfold turn_type, and_type. rewrite Hturn, Hend.
  rewrite (PyFacts.startswith_nonempty t "turn.") by (exact Hturn || discriminate).
  reflexivity.
Qed.

Lemma final_raw_item_thread (data : dict) (t : string) :
  _get_raw_type data = Some t ->
  Py.startswith t "item." || Py.startswith t "thread." = true ->
  is_True (Py.get "final" data) = false ->
  final_raw data = false.
Proof.
  intros Ht Hpre Hfinal. unfold final_raw. rewrite Ht, Hfinal.
  assert (Hne : String.eqb t "" = false).
  { apply orb_true_iff in Hpre as [Hp|Hp];
      eapply PyFacts.startswith_nonempty; try exact Hp; discriminate. }
  assert (Hnf : mem_opt (Some t) FINAL_TYPES = false).
  { unfold mem_opt. destruct (Py.mem t FINAL_TYPES) eqn:Hm; [|reflexivity].
    apply orb_true_iff in Hpre as [Hp|Hp];
      pose proof (final_type_prefix _ _ Hm Hp) as Hex;
      vm_compute in Hex; discriminate. }
  assert (Hnt : turn_type (Some t) = false).
  { unfold turn_type, and_type. rewrite Hne. simpl.
    destruct (Py.startswith t "turn.") eqn:Hturn; [|reflexivity].
    apply orb_true_iff in Hpre as [Hp|Hp];
      destruct (PyFacts.startswith_comparable _ _ _ Hturn Hp) as [Hc|Hc];
      vm_compute in Hc; discriminate. }
  rewrite Hnf, Hnt. simpl. unfold and_type. rewrite Hne, Hpre. reflexivity.
Qed.

(** ** When the classifier returns *)

Lemma parse_item_total (data item : dict) :
  Py.unhashable (Py.or_ (Py.get "type" item) (Py.get "itemType" item)) = false ->
  exists m, parse_item data item = Ok m.
Proof.
  unfold parse_item. intros Hh.
  destruct (Py.or_ (Py.get "type" item) (Py.get "itemType" item));
    try discriminate; simpl;
    repeat case_match; simplify_eq; eexists; reflexivity.
Qed.

Lemma parse_dict_total (data : dict) :
  item_type_unhashable data = false -> exists m, parse_dict data = Ok m.
Proof.
  unfold item_type_unhashable, parse_dict. intros Hh.
  destruct (item_event data) as [item|].
  - repeat case_match; simplify_eq; try (eexists; reflexivity).
    apply parse_item_total, Hh.
  - repeat case_match; simplify_eq; eexists; reflexivity.
Qed.

Lemma parse_dict_raises (data : dict) :
  error_shape data = false ->
  thread_type (_get_raw_type data) = false ->
  turn_type (_get_raw_type data) = false ->
  _is_log_type (_get_raw_type data) = false ->
  item_type_unhashable data = true ->
  exists message, parse_dict data = Raise (TypeError message).
Proof.
  unfold item_type_unhashable, parse_dict.
  intros -> -> -> -> Hh.
  destruct (item_event data) as [item|]; [|discriminate].
  unfold parse_item.
  destruct (Py.or_ (Py.get "type" item) (Py.get "itemType" item));
    try discriminate; simpl; eexists; reflexivity.
Qed.

(** C9. On this object the classifier raises [TypeError] instead of
    returning a message: the embedded item's [type] is a list, and the
    membership test [item_type in ITEM_MESSAGE_TYPES] hashes it. *)
Theorem parse_message_unhashable_item_type :
  parse_message
    (JObj [("type", JStr "item.completed");
           ("item", JObj [("type", JArr [JStr "x"])])])
  = Raise (TypeError "unhashable type: 'list'").
Proof. reflexivity. Qed.

(** ** The role rule *)



(** ** The terminal predicate after classification *)

(** C3 (as amended). A type that starts with [turn.] and ends with
    [completed] makes the classified object terminal.  A type that starts
    with [thread.] or [item.] makes it non-terminal provided the object is
    not error-shaped and its [final] member is not [true] (for [item.],
    with an embedded item type that can be hashed). *)
Theorem final_predicate_by_type (data : dict) (t : string) :
  Py.get "type" data = JStr t ->
  (Py.startswith t "turn." = true -> Py.endswith t "completed" = true ->
   classify_final (JObj data) = Ok true)
  /\ (Py.startswith t "thread." = true ->
      error_shape data = false -> is_True (Py.get "final" data) = false ->
      classify_final (JObj data) = Ok false)
  /\ (Py.startswith t "item." = true ->
      error_shape data = false -> is_True (Py.get "final" data) = false ->
      item_type_unhashable data = false ->
      classify_final (JObj data) = Ok false).
Proof.
  intros Htype.
  assert (Hraw : forall p, Py.startswith t p = true -> p <> "" ->
                           _get_raw_type data = Some t).
  { intros p Hp Hne. apply raw_type_of_type; [exact Htype|].
    eapply PyFacts.startswith_nonempty; eauto. }
  split; [|split].
  - intros Hturn Hend.
    specialize (Hraw _ Hturn ltac:(discriminate)).
    pose proof (final_raw_turn_completed _ _ Hraw Hturn Hend) as Hfinal.
    unfold classify_final. simpl. unfold parse_dict.
    destruct (error_shape data); [reflexivity|].
    rewrite Hraw.
    destruct (thread_type (Some t)); [simpl; rewrite Hfinal; reflexivity|].
    assert (Hturn_type : turn_type (Some t) = true).
    { unfold turn_type, and_type. rewrite Hturn.
      rewrite (PyFacts.startswith_nonempty t "turn.") by (exact Hturn || discriminate).
      reflexivity. }
    rewrite Hturn_type. simpl. rewrite Hfinal. reflexivity.
  - intros Hthread Herr Hfin.
    specialize (Hraw _ Hthread ltac:(discriminate)).
    assert (Hfinal : final_raw data = false).
    { eapply final_raw_item_thread; eauto. rewrite Hthread. apply orb_true_r. }
    unfold classify_final. simpl. unfold parse_dict. rewrite Herr, Hraw.
    assert (Hthread_type : thread_type (Some t) = true).
    { unfold thread_type, and_type. rewrite Hthread.
      rewrite (PyFacts.startswith_nonempty t "thread.") by (exact Hthread || discriminate).
      reflexivity. }
    rewrite Hthread_type. simpl. rewrite Hfinal. reflexivity.
  - intros Hitem Herr Hfin Hhash.
    specialize (Hraw _ Hitem ltac:(discriminate)).
    assert (Hfinal : final_raw data = false).
    { eapply final_raw_item_thread; eauto. rewrite Hitem. reflexivity. }
    destruct (parse_dict_total _ Hhash) as [m Hm].
    destruct (parse_dict_ok _ _ Hm) as [Hmraw Hkind]. specialize (Hkind Herr).
    unfold classify_final. simpl. rewrite Hm. simpl. f_equal.
    destruct m as [m|e]; simpl in *.
    + rewrite Hkind, Hmraw. exact Hfinal.
    + rewrite Hmraw. exact Hfinal.
Qed.

End Facts.

(** ** The cases of [tests/test_message_parser.py] *)

Example test_parse_message_item_completed_agent_message :
  let event :=
    [("type", JStr "item.completed");
     ("item", JObj [("id", JStr "item_1"); ("type", JStr "agent_message");
                    ("text", JStr "Hello")])] in
  parse_message (H := Py.plain_runtime) (JObj event) =
    Ok (IsMessage
          (CodexMessage.mk K_item event (Some "item.completed")
             (Some "agent_message") (Some "assistant") (Some "Hello")
             None None JNull (Some "item.completed") None None)).
Proof. reflexivity. Qed.

Example test_parse_message_item_started_command_execution :
  let event :=
    [("type", JStr "item.started");
     ("item", JObj [("id", JStr "item_1"); ("type", JStr "command_execution");
                    ("command", JStr "/bin/zsh -lc ls");
                    ("status", JStr "in_progress")])] in
  parse_message (H := Py.plain_runtime) (JObj event) =
    Ok (IsMessage
          (CodexMessage.mk K_tool event (Some "item.started")
             (Some "command_execution") None None (Some "command_execution")
             (Some [("command", JStr "/bin/zsh -lc ls")]) JNull
             (Some "in_progress") None None)).
Proof. reflexivity. Qed.

Example test_parse_message_error_event :
  let event := [("type", JStr "error"); ("error", JStr "boom")] in
  parse_message (H := Py.plain_runtime) (JObj event) =
    Ok (IsMessage
          (CodexMessage.mk K_error event (Some "error") None None None None
             None JNull (Some "error") (Some "boom") None)).
Proof. reflexivity. Qed.

Example test_parse_message_raw_event_fallback :
  let event := [("foo", JStr "bar")] in
  parse_message (H := Py.plain_runtime) (JObj event) =
    Ok (IsEvent (CodexEvent.mk K_raw event None None None None)).
Proof. reflexivity. Qed.

Example test_default_final_predicate :
  classify_final (H := Py.plain_runtime)
    (JObj [("type", JStr "turn.completed"); ("status", JStr "completed")])
  = Ok true.
Proof. reflexivity. Qed.

Example parse_message_rejects_list :
  parse_message (H := Py.plain_runtime) (JArr []) =
    Raise (MessageParseError
             "Invalid message data type (expected dict, got list)").
Proof. reflexivity. Qed.

(** ** The theorems at work *)



Lemma final_predicate_by_type_witness :
  classify_final (H := Py.plain_runtime)
    (JObj [("type", JStr "turn.completed"); ("status", JStr "completed")])
  = Ok true
  /\ classify_final (H := Py.plain_runtime)
       (JObj [("type", JStr "thread.started"); ("status", JStr "completed")])
     = Ok false
  /\ classify_final (H := Py.plain_runtime)
       (JObj [("type", JStr "item.completed"); ("status", JStr "completed");
              ("item", JObj [("type", JStr "agent_message");
                             ("text", JStr "Hello")])])
     = Ok false.
Proof.
  split; [|split].
  - apply (proj1 (final_predicate_by_type (H := Py.plain_runtime)
                    [("type", JStr "turn.completed");
                     ("status", JStr "completed")]
                    "turn.completed" eq_refl)); reflexivity.
  - apply (proj1 (proj2 (final_predicate_by_type (H := Py.plain_runtime)
                    [("type", JStr "thread.started");
                     ("status", JStr "completed")]
                    "thread.started" eq_refl))); reflexivity.
  - apply (proj2 (proj2 (final_predicate_by_type (H := Py.plain_runtime)
                    [("type", JStr "item.completed");
                     ("status", JStr "completed");
                     ("item", JObj [("type", JStr "agent_message");
                                    ("text", JStr "Hello")])]
                    "item.completed" eq_refl))); reflexivity.
Defined.

(** A [thread.] object with status [failed] is classified as an error,
    which is terminal; an [item.] object with [final: true] is terminal
    too. *)
Lemma item_thread_terminal :
  classify_final (H := Py.plain_runtime)
    (JObj [("type", JStr "thread.started"); ("status", JStr "failed")])
  = Ok true
  /\ classify_final (H := Py.plain_runtime)
       (JObj [("type", JStr "item.completed"); ("final", JBool true)])
     = Ok true.
Proof. split; reflexivity. Qed.

End ParserFacts.


(* ===================================================================== *)
(** * The stdout framing *)
(* ===================================================================== *)

Module FramingFacts.

Import Framing.

Section Facts.
Context `{!Py.Runtime}.
Variable limit : Z.

Lemma read_json_lines_app (r : reader) (l1 l2 : list string) :
  read_json_lines limit r (l1 ++ l2) =
    match read_json_lines limit r l1 with
    | (r', None) => read_json_lines limit r' l2
    | failed => failed
    end.
Proof.
  revert r. induction l1 as [|l l1 IH]; intros r; [reflexivity|].
  simpl. destruct (read_json_line limit r l) as [r' [e|]]; [reflexivity|].
  apply IH.
Qed.

Lemma read_chunks_flat (r : reader) (chunks : list string) :
  read_chunks limit r chunks = read_json_lines limit r (json_lines_of chunks).
Proof.
  revert r. induction chunks as [|line chunks IH]; intros r; [reflexivity|].
  simpl. rewrite read_json_lines_app. unfold read_chunk.
  destruct (String.eqb (Py.strip line) ""); [simpl; apply IH|].
  destruct (read_json_lines limit r _) as [r' [e|]]; [reflexivity | apply IH].
Qed.

(** ** Every yielded object comes from a buffer within the limit *)

Lemma read_json_line_yields (r r' : reader) (json_line : string)
    (e : option exn) :
  read_json_line limit r json_line = (r', e) ->
  Forall (decoded_within_limit limit) (yielded r) ->
  Forall (decoded_within_limit limit) (yielded r').
Proof.
  unfold read_json_line. intros Hstep Hold.
  repeat case_match; simplify_eq; simpl; try exact Hold.
  apply Forall_app. split; [exact Hold|].
  constructor; [|constructor].
  eexists. split; [eassumption|]. lia.
Qed.

Lemma read_json_lines_yields (json_lines : list string) (r r' : reader)
    (e : option exn) :
  read_json_lines limit r json_lines = (r', e) ->
  Forall (decoded_within_limit limit) (yielded r) ->
  Forall (decoded_within_limit limit) (yielded r').
Proof.
  revert r. induction json_lines as [|l ls IH]; intros r; simpl.
  - intros [= <- <-]. auto.
  - destruct (read_json_line limit r l) as [r1 [e1|]] eqn:Hstep.
    + intros [= <- <-]. eapply read_json_line_yields; eauto.
    + intros Hrest Hold. eapply IH; [exact Hrest|].
      eapply read_json_line_yields; eauto.
Qed.

(** ** The size limit *)

Lemma read_json_line_overflow (r : reader) (json_line : string) :
  Py.startswith (Py.strip json_line) "{" = true ->
  (Py.len (json_buffer r +:+ Py.strip json_line) > limit)%Z ->
  read_json_line limit r json_line =
    (mk_reader "" (yielded r),
     Some (buffer_overflow limit
             (Py.len (json_buffer r +:+ Py.strip json_line)))).
Proof.
  intros Hstart Hlen. unfold read_json_line.
  destruct (String.eqb (Py.strip json_line) "") eqn:Hblank.
  { apply String.eqb_eq in Hblank. rewrite Hblank in Hstart. discriminate. }
  rewrite Hstart. simpl.
  destruct (Z.gtb_spec (Py.len (json_buffer r +:+ Py.strip json_line)) limit);
    [reflexivity | lia].
Qed.

(** C8. When a line starting with [{] makes the accumulated buffer longer
    than the limit, the read sequence fails there with the decode error
    that carries the buffer length and the limit, the buffer is left
    empty, and everything yielded before was decoded from a buffer within
    the limit. *)
Theorem oversized_buffer_fails (chunks before after : list string)
    (json_line : string) (r : reader) (stop : stream_end) (wait : result Z) :
  json_lines_of chunks = before ++ json_line :: after ->
  read_json_lines limit (mk_reader "" []) before = (r, None) ->
  Py.startswith (Py.strip json_line) "{" = true ->
  (Py.len (json_buffer r +:+ Py.strip json_line) > limit)%Z ->
  let buffer_length := Py.len (json_buffer r +:+ Py.strip json_line) in
  let failure :=
    CLIJSONDecodeError
      ("JSON message exceeded maximum buffer size of "
       +:+ Py.str_int limit +:+ " bytes")
      (ValueError
         ("Buffer size " +:+ Py.str_int buffer_length +:+ " exceeds limit "
          +:+ Py.str_int limit)) in
  read_chunks limit (mk_reader "" []) chunks
    = (mk_reader "" (yielded r), Some failure)
  /\ _read_messages_impl limit true chunks stop wait
     = (yielded r, Some failure)
  /\ Forall (decoded_within_limit limit) (yielded r).
Proof.
  intros Hlines Hbefore Hstart Hlen buffer_length failure.
  assert (Hrun : read_chunks limit (mk_reader "" []) chunks
                 = (mk_reader "" (yielded r), Some failure)).
  { rewrite read_chunks_flat, Hlines, read_json_lines_app, Hbefore. simpl.
    rewrite (read_json_line_overflow r json_line Hstart Hlen). reflexivity. }
  split; [exact Hrun|]. split.
  - unfold _read_messages_impl. simpl. rewrite Hrun. reflexivity.
  - eapply (read_json_lines_yields before); [exact Hbefore|]. constructor.
Qed.

(** ** Interleaved log lines *)

(** C7 (as amended). A line that, once stripped, is not empty and does not
    start with [{] is skipped when the buffer is empty and empties the
    buffer otherwise; either way, a following line that decodes as JSON,
    starts with [{] and fits the size limit is decoded on its own and
    yielded. *)
Theorem log_line_interleaved (r : reader) (noise good : string)
    (data : json) (rest : list string) :
  String.eqb (Py.strip noise) "" = false ->
  Py.startswith (Py.strip noise) "{" = false ->
  (String.eqb (json_buffer r) "" = true ->
   read_json_line limit r noise = (r, None))
  /\ (String.eqb (json_buffer r) "" = false ->
      read_json_line limit r noise = (mk_reader "" (yielded r), None))
  /\ (Py.startswith (Py.strip good) "{" = true ->
      Py.json_loads (Py.strip good) = Some data ->
      (Py.len (Py.strip good) <= limit)%Z ->
      read_json_lines limit r (noise :: good :: rest) =
        read_json_lines limit (mk_reader "" (yielded r ++ [data])) rest).
Proof.
  intros Hnonblank Hnoise.
  assert (Hskip : String.eqb (json_buffer r) "" = true ->
                  read_json_line limit r noise = (r, None)).
  { intros Hempty. unfold read_json_line.
    rewrite Hnonblank, Hnoise, Hempty. reflexivity. }
  assert (Hdrop : String.eqb (json_buffer r) "" = false ->
                  read_json_line limit r noise
                  = (mk_reader "" (yielded r), None)).
  { intros Hpartial. unfold read_json_line.
    rewrite Hnonblank, Hnoise, Hpartial. reflexivity. }
  split; [exact Hskip|]. split; [exact Hdrop|].
  intros Hgood Hloads Hfits.
  assert (Hafter : exists r1, read_json_line limit r noise = (r1, None)
                              /\ json_buffer r1 = "" /\ yielded r1 = yielded r).
  { destruct (String.eqb (json_buffer r) "") eqn:Hbuf.
    - exists r. split; [auto|]. apply String.eqb_eq in Hbuf. auto.
    - eexists. split; [auto|]. split; reflexivity. }
  destruct Hafter as (r1 & Hstep & Hbuf1 & Hyield1).
  simpl. rewrite Hstep.
  unfold read_json_line at 1. rewrite Hbuf1, Hgood. simpl.
  destruct (String.eqb (Py.strip good) "") eqn:Hblank.
  { apply String.eqb_eq in Hblank. rewrite Hblank in Hgood. discriminate. }
  change ("" +:+ Py.strip good) with (Py.strip good).
  destruct (Z.gtb_spec (Py.len (Py.strip good)) limit); [lia|].
  rewrite Hloads, Hyield1. reflexivity.
Qed.

End Facts.

(** ** The theorems at work *)

Lemma oversized_buffer_fails_witness :
  _read_messages_impl (H := Py.plain_runtime) 4 true ["{}"; "{ab"; "{cd"]
    EndOfStream (Ok 0%Z)
  = ([JObj []],
     Some (CLIJSONDecodeError
             "JSON message exceeded maximum buffer size of 4 bytes"
             (ValueError "Buffer size 6 exceeds limit 4"))).
Proof.
  apply (proj1 (proj2
    (oversized_buffer_fails (H := Py.plain_runtime) 4
       ["{}"; "{ab"; "{cd"] ["{}"; "{ab"] [] "{cd"
       (mk_reader "{ab" [JObj []]) EndOfStream (Ok 0%Z)
       eq_refl eq_refl eq_refl eq_refl))).
Defined.

Lemma log_line_interleaved_witness :
  read_json_lines (H := Py.plain_runtime) 1024 (mk_reader "{ab" [])
    ["warning: slow"; "{}"]
  = (mk_reader "" [JObj []], None).
Proof.
  apply (proj2 (proj2
    (log_line_interleaved (H := Py.plain_runtime) 1024 (mk_reader "{ab" [])
       "warning: slow" "{}" (JObj []) [] eq_refl eq_refl)));
    [reflexivity | reflexivity | vm_compute; discriminate].
Defined.

(** A blank line read while the buffer holds a partial object leaves the
    buffer as it is, and the object line that follows is glued to it;
    and an object line longer than the limit fails the sequence. *)
Lemma blank_line_keeps_buffer :
  read_json_line (H := Py.plain_runtime) 1024 (mk_reader "{ab" []) " "
    = (mk_reader "{ab" [], None)
  /\ _read_messages_impl (H := Py.plain_runtime) 1024 true
       ["{ab"; " "; "{}"] EndOfStream (Ok 0%Z)
     = ([], None)
  /\ _read_messages_impl (H := Py.plain_runtime) 1 true
       ["warning: slow"; "{}"] EndOfStream (Ok 0%Z)
     = ([], Some (CLIJSONDecodeError
                    "JSON message exceeded maximum buffer size of 1 bytes"
                    (ValueError "Buffer size 2 exceeds limit 1"))).
Proof. repeat split; reflexivity. Qed.

End FramingFacts.


(* ===================================================================== *)
(** * The stream demultiplexer *)
(* ===================================================================== *)

Module StreamFacts.

Import Stream.

Section Facts.
Context `{!Py.Runtime}.

Lemma receive_control (message : dict) (rest : list dict) :
  is_control message = true ->
  receive_messages (message :: rest) = ([], control_finish message).
Proof.
  unfold is_control, control_finish. simpl.
  destruct (Py.eq_str (Py.get _CONTROL_KEY message) "end"); [reflexivity|].
  simpl. intros ->. reflexivity.
Qed.

Lemma receive_plain (message : dict) (rest : list dict) :
  is_control message = false ->
  receive_messages (message :: rest) =
    (message :: fst (receive_messages rest), snd (receive_messages rest)).
Proof.
  unfold is_control. simpl. intros Hc.
  apply orb_false_iff in Hc as [-> ->].
  destruct (receive_messages rest). reflexivity.
Qed.

(** C10 (as amended). The consumer gets exactly the transport frames ahead
    of the first frame whose reserved key holds ["end"] or ["error"], in
    arrival order.  At such a frame the stream stops silently (["end"]) or
    raises the protocol-stream error (["error"]); without one it ends the
    way the reader's own markers say.  Frames that carry the reserved key
    with any other value are yielded like the rest. *)
Theorem receive_until_control (frames : list dict) (failure : option exn) :
  fst (run frames failure) = before_control frames
  /\ snd (run frames failure) =
       match find is_control frames with
       | Some message => control_finish message
       | None =>
           match failure with
           | Some e =>
               Raised (ProtocolStreamError
                         ("Query stream failed: " +:+ str_exn e) None None)
           | None => Stopped
           end
       end.
Proof.
  unfold run, _read_messages.
  induction frames as [|message rest [IHy IHf]].
  - destruct failure; split; reflexivity.
  - simpl forward. simpl app. simpl before_control. simpl find.
    destruct (is_control message) eqn:Hc.
    + rewrite (receive_control _ _ Hc). split; reflexivity.
    + rewrite (receive_plain _ _ Hc). simpl. rewrite IHy, IHf.
      split; reflexivity.
Qed.

End Facts.

(** A transport frame that holds the reserved key with another value is
    handed to the consumer, and so is the frame after it. *)
Lemma reserved_key_frame_yielded :
  let frames := [[(_CONTROL_KEY, JStr "progress")]; [("type", JStr "turn.started")]] in
  Py.has_key _CONTROL_KEY (hd [] frames) = true
  /\ run (H := Py.plain_runtime) frames None = (frames, Stopped).
Proof. split; reflexivity. Qed.

End StreamFacts.


(* ===================================================================== *)
(** * The bidirectional engine *)
(* ===================================================================== *)

Module EngineFacts.

Import Engine.

Section Handlers.
Context `{!Py.Runtime}.
Variable options : CodexAgentOptions.

(** ** Approval decisions *)

Lemma normalize_known (raw callback_name normalized : string) :
  table_get (Py.lower (Py.strip raw)) _APPROVAL_DECISION_MAP = Some normalized ->
  _normalize_approval_decision raw callback_name =
    Ok (if String.eqb normalized "accept" then allow
        else if String.eqb normalized "deny" then deny else defer).
Proof.
  unfold _normalize_approval_decision. intros ->.
  destruct (String.eqb normalized "accept"); [reflexivity|].
  destruct (String.eqb normalized "deny"); reflexivity.
Qed.

Lemma resolve_string (kind callback_name raw : string) (params : dict)
    (callback : Callback) :
  approval_callback options kind = Some callback ->
  callback params = Ok (V_str raw) ->
  _resolve_approval_decision options kind params callback_name =
    match _normalize_approval_decision raw callback_name with
    | Ok defer => Ok (inl (_fallback_decision_from_policy options))
    | Ok decision => Ok (inl decision)
    | Raise e => Raise e
    end.
Proof.
  unfold _resolve_approval_decision. intros -> Hcall. simpl. rewrite Hcall.
  simpl. destruct (_normalize_approval_decision raw callback_name) as [[]|];
    reflexivity.
Qed.


(** Without a callback the policy decides: only [never] allows. *)
Lemma approval_without_callback (params : dict) :
  approval_callback options "command" = None ->
  approval_callback options "file_change" = None ->
  let decision :=
    if decide (ask_for_approval options = Some "never") then "accept"
    else "deny" in
  _handle_command_approval options params = Ok [("decision", JStr decision)]
  /\ _handle_file_change_approval options params
     = Ok [("decision", JStr decision)].
Proof.
  intros Hcommand Hfile decision. subst decision.
  unfold _handle_command_approval, _handle_file_change_approval,
    _resolve_approval_decision, _fallback_decision_from_policy.
  rewrite Hcommand, Hfile. simpl.
  destruct (ask_for_approval options) as [policy|] eqn:Hpolicy.
  - destruct (String.eqb_spec policy "never") as [->|Hne].
    + rewrite decide_True by reflexivity. split; reflexivity.
    + rewrite decide_False by congruence. split; reflexivity.
  - rewrite decide_False by discriminate. split; reflexivity.
Qed.

(** The legacy methods answer with their own words. *)
Lemma legacy_approval_words (method : string) (params : dict)
    (callback : Callback) :
  approval_callback options
    (if String.eqb method "execCommandApproval" then "command"
     else "file_change") = Some callback ->
  callback params = Ok (V_str "approved") ->
  _handle_legacy_approval options method params
  = Ok [("decision", JStr "approved")].
Proof.
  intros Hcb Hcall. unfold _handle_legacy_approval.
  rewrite (resolve_string _ _ _ _ _ Hcb Hcall). reflexivity.
Qed.

(** ** Dynamic tool calls *)

(** C6. A tool call that names a tool absent from the tool map is
    answered with a [result] envelope whose payload has [success] false
    and an output naming the tool.  That envelope is the one line written
    to a ready transport; nothing is written to one that is not ready. *)
Theorem unknown_tool_reply (t : Transport) (message params : dict)
    (tool_name : string) :
  Py.get "method" message = JStr "item/tool/call" ->
  Py.get "params" message = JObj params ->
  Py.get "tool" params = JStr tool_name ->
  _tool_map options !! tool_name = None ->
  let envelope :=
    [("id", JStr (Py.to_str (Py.get "id" message)));
     ("result", JObj [("success", JBool false);
                      ("output", JStr ("Unknown tool: " +:+ tool_name))])] in
  _handle_dynamic_tool_call options params
  = Ok [("success", JBool false);
        ("output", JStr ("Unknown tool: " +:+ tool_name))]
  /\ _handle_server_request options t message =
     if ready t then
       (Ok tt,
        mk_transport true
          (written t
           ++ [Py.json_dumps (JObj envelope) +:+ String Framing.line_feed ""]))
     else (Raise (CLIConnectionError "Transport is not ready for writing"), t).
Proof.
  intros Hmethod Hparams Htool Habsent envelope.
  assert (Hcall : _handle_dynamic_tool_call options params
                  = Ok [("success", JBool false);
                        ("output", JStr ("Unknown tool: " +:+ tool_name))]).
  { unfold _handle_dynamic_tool_call. rewrite Htool, Habsent. reflexivity. }
  split; [exact Hcall|].
  unfold _handle_server_request, server_reply.
  rewrite Hmethod, Hparams. simpl Py.eq_str. cbv iota. rewrite Hcall.
  unfold _send, write, Errors.bind.
  destruct (ready t) eqn:Hready; simpl; rewrite ?Hready; reflexivity.
Qed.

End Handlers.

Section Requests.
Context `{!Py.Runtime}.
Variable options : CodexAgentOptions.

(** ** A request nobody answers stays pending *)

Lemma dispatch_silent (c : AppServerClient) (message : dict)
    (request_id : string) :
  suspended c request_id ->
  silent_for request_id (Frame message) = true ->
  suspended (fst (dispatch c message)) request_id
  /\ _read_loop_phase (fst (dispatch c message)) = _read_loop_phase c.
Proof.
  intros [Hpending Hopen] Hsilent. unfold dispatch.
  simpl in Hsilent. apply negb_true_iff in Hsilent.
  destruct (is_response message) eqn:Hresp.
  - simpl in Hsilent. apply String.eqb_neq in Hsilent.
    destruct (_pending c !! Py.to_str (Py.get "id" message)) eqn:Hother;
      simpl; [|split; [split|]; auto].
    split; [split|]; auto. simpl.
    rewrite lookup_insert_ne by exact Hsilent. exact Hpending.
  - repeat case_match; simpl; split; try split; auto.
Qed.

Lemma step_silent (c : AppServerClient) (seg : segment)
    (request_id : string) :
  suspended c request_id ->
  silent_for request_id seg = true ->
  suspended (fst (read_loop_step c seg)) request_id
  /\ _read_loop_phase (fst (read_loop_step c seg))
     = _read_loop_phase c.
Proof.
  intros Hs Hsilent. destruct seg as [message| |]; try discriminate.
  unfold read_loop_step.
  destruct (_read_loop_phase c) eqn:Hphase; simpl; auto.
  destruct Hs as [Hpending Hopen]. rewrite Hopen.
  rewrite <- Hphase. apply dispatch_silent; [split; auto | exact Hsilent].
Qed.

Lemma wait_silent (schedule : list segment) (c : AppServerClient)
    (request_id : string) :
  suspended c request_id ->
  forallb (silent_for request_id) schedule = true ->
  exists c' effects,
    wait c request_id schedule = (c', effects, false)
    /\ suspended c' request_id
    /\ _read_loop_phase c' = _read_loop_phase c.
Proof.
  revert c. induction schedule as [|seg rest IH]; intros c Hs Hall.
  - exists c, []. simpl. unfold event_is_set. destruct Hs as [Hp Ho].
    rewrite Hp. split; [reflexivity|]. split; [split; assumption | reflexivity].
  - simpl in Hall. apply andb_true_iff in Hall as [Hseg Hrest].
    destruct (step_silent c seg request_id Hs Hseg) as [Hs1 Hphase1].
    destruct (IH _ Hs1 Hrest) as (c' & effects & Hwait & Hs' & Hphase').
    simpl. unfold event_is_set at 1. destruct Hs as [Hp Ho]. rewrite Hp.
    destruct (read_loop_step c seg) as [c1 effects1]. simpl in *.
    rewrite Hwait. exists c', (effects1 ++ effects).
    split; [reflexivity|]. split; [exact Hs' | congruence].
Qed.


(** A response whose id is not pending is logged and dropped. *)
Lemma dispatch_unexpected_id (c : AppServerClient) (message : dict) :
  is_response message = true ->
  _pending c !! Py.to_str (Py.get "id" message) = None ->
  dispatch c message
  = (c, [Logged_unexpected (Py.to_str (Py.get "id" message))]).
Proof. intros Hresp Hnone. unfold dispatch. rewrite Hresp, Hnone. reflexivity. Qed.



(** C1 (as amended). With a positive timeout, a request whose write the
    transport accepts, on an engine that is not closed, and for which the
    dispatch loop meanwhile only handles frames other than a response
    bearing its id, ends in the request-timeout error carrying the method
    and the timeout.  Afterwards neither table has an entry for the id,
    and a response bearing it is logged and dropped: the dispatch leaves
    the engine as it is. *)
Theorem request_times_out (c : AppServerClient) (method : string)
    (params : option dict) (timeout : Q) (schedule : list segment) :
  app_server_request_timeout_seconds options = Some timeout ->
  Qle_bool timeout 0 = false ->
  ready (transport c) = true ->
  _closed c = false ->
  let request_id := "req_" +:+ Py.str_int (_request_counter c + 1) in
  forallb (silent_for request_id) schedule = true ->
  exists c' effects,
    _send_request options c method params schedule
    = (c', effects, Raised (RequestTimeoutError method timeout))
    /\ _pending c' !! request_id = None
    /\ _pending_results c' !! request_id = None
    /\ forall late : dict,
         is_response late = true ->
         Py.to_str (Py.get "id" late) = request_id ->
         dispatch c' late = (c', [Logged_unexpected request_id]).
Proof.
  intros Htimeout Hpositive Hready Hopen request_id Hsilent.
  unfold _send_request, register, _send, write. cbv zeta. simpl.
  rewrite Hready.
  match goal with
  | |- context [wait ?c0 ?r ?l] =>
      destruct (wait_silent l c0 r) as (c2 & effects & Hwait & _ & _);
        [split; simpl; [apply lookup_insert_eq | exact Hopen]
        | exact Hsilent
        | rewrite Hwait]
  end.
  unfold _request_timeout. rewrite Htimeout, Hpositive.
  exists (forget c2 request_id), effects.
  split; [reflexivity|]. split; [apply lookup_delete_eq|].
  split; [apply lookup_delete_eq|].
  intros late Hresp Hid. unfold dispatch. rewrite Hresp, Hid. simpl.
  rewrite lookup_delete_eq. reflexivity.
Qed.


End Requests.

(** ** The theorems at work *)


Lemma unknown_tool_reply_witness :
  let message :=
    [("id", JInt 7); ("method", JStr "item/tool/call");
     ("params", JObj [("tool", JStr "lookup"); ("arguments", JObj [])])] in
  let envelope :=
    [("id", JStr "7");
     ("result", JObj [("success", JBool false);
                      ("output", JStr "Unknown tool: lookup")])] in
  _handle_server_request (H := Py.plain_runtime) default_options
    (mk_transport true []) message
  = (Ok tt,
     mk_transport true
       [Py.json_dumps (Runtime := Py.plain_runtime) (JObj envelope)
        +:+ String Framing.line_feed ""]).
Proof.
  intros message envelope.
  apply (proj2 (unknown_tool_reply (H := Py.plain_runtime) default_options
                  (mk_transport true []) message
                  [("tool", JStr "lookup"); ("arguments", JObj [])]
                  "lookup" eq_refl eq_refl eq_refl eq_refl)).
Defined.

Lemma request_times_out_witness :
  let c := start_read_loop (init (mk_transport true [])) in
  let schedule :=
    [Frame [("method", JStr "turn/started"); ("params", JObj [])];
     Frame [("id", JStr "req_9"); ("result", JObj [])]] in
  exists c' effects,
    _send_request (H := Py.plain_runtime) default_options c "initialize"
      (Some []) schedule
    = (c', effects, Raised (RequestTimeoutError "initialize" (30 # 1)))
    /\ _pending c' !! "req_1" = None
    /\ _pending_results c' !! "req_1" = None
    /\ forall late : dict,
         is_response late = true ->
         Py.to_str (H := Py.plain_runtime) (Py.get "id" late) = "req_1" ->
         dispatch (H := Py.plain_runtime) c' late
         = (c', [Logged_unexpected "req_1"]).
Proof.
  intros c schedule.
  apply (request_times_out (H := Py.plain_runtime) default_options c
           "initialize" (Some []) (30 # 1) schedule);
    reflexivity.
Defined.

(** The transport's stream ends without any reply: the waiting call is
    failed with the connection error, not with the timeout. *)
Lemma stream_end_fails_request :
  let c := start_read_loop (init (mk_transport true [])) in
  forallb (fun seg => match seg with
                      | Frame message => negb (is_response message)
                      | _ => true
                      end) [Finally] = true
  /\ (_send_request (H := Py.plain_runtime) default_options c "initialize"
        (Some []) [Finally]).2
     = Raised (CLIConnectionError
                 "App-server connection closed before response.").
Proof. split; vm_compute; reflexivity. Qed.



End EngineFacts.

(* ===================================================================== *)
(** * More on the classifier, and the session bookkeeping built on it *)
(* ===================================================================== *)

Module ParserProps.

Import Parser SDKClient.

Section Props.
Context `{!Py.Runtime}.

Lemma parse_item_views (data item : dict) (m : Message) :
  parse_item data item = Ok m ->
  session_id_of m = _extract_session_id data
  /\ event_type_of m = _get_raw_type data.
Proof.
  unfold parse_item, Errors.bind. intros Hm.
  repeat case_match; simplify_eq; split; reflexivity.
Qed.

Lemma parse_dict_views (data : dict) (m : Message) :
  parse_dict data = Ok m ->
  session_id_of m = _extract_session_id data
  /\ event_type_of m = _get_raw_type data.
Proof.
  unfold parse_dict. intros Hm.
  repeat case_match; simplify_eq; try (split; reflexivity).
  eapply parse_item_views; eassumption.
Qed.

(** X1. Whatever the classifier returns for an object carries that very
    object as its raw payload, the object's raw type as event type and
    the session id found in the object. *)
Theorem classification_is_lossless (data : dict) (m : Message) :
  parse_message (JObj data) = Ok m ->
  message_raw m = data
  /\ event_type_of m = _get_raw_type data
  /\ session_id_of m = _extract_session_id data.
Proof.
  simpl. intros Hm.
  destruct (ParserFacts.parse_dict_ok data m Hm) as [Hraw _].
  destruct (parse_dict_views data m Hm) as [Hsession Htype].
  auto.
Qed.

(** X2. An error-shaped object is always classified, as an error-kind
    message; and no other object ever gets the error kind. *)
Theorem error_kind_iff_error_shape (data : dict) :
  (error_shape data = true ->
   parse_message (JObj data) = Ok (IsMessage (parse_error data))
   /\ CodexMessage.kind (parse_error data) = K_error)
  /\ (forall m, parse_message (JObj data) = Ok m ->
                is_error_kind (message_kind m) = error_shape data).
Proof.
  split.
  - intros Herr. simpl. unfold parse_dict. rewrite Herr. split; reflexivity.
  - intros m Hm. simpl in Hm.
    destruct (error_shape data) eqn:Herr.
    + unfold parse_dict in Hm. rewrite Herr in Hm. injection Hm as <-.
      reflexivity.
    + apply (ParserFacts.parse_dict_ok data m Hm). exact Herr.
Qed.

(** X3. On an object the classifier raises exactly when none of the
    error, thread, turn and log rules takes it and the embedded item's
    type cannot be hashed; what it raises is always a [TypeError]. *)
Theorem parse_raises_iff (data : dict) :
  ((exists e, parse_message (JObj data) = Raise e)
   <-> (error_shape data = false
        /\ thread_type (_get_raw_type data) = false
        /\ turn_type (_get_raw_type data) = false
        /\ _is_log_type (_get_raw_type data) = false
        /\ item_type_unhashable data = true))
  /\ (forall e,
        parse_message (JObj data) = Raise e ->
        exists message, e = TypeError message).
Proof.
  assert (Hconds :
            forall e, parse_message (JObj data) = Raise e ->
                      error_shape data = false
                      /\ thread_type (_get_raw_type data) = false
                      /\ turn_type (_get_raw_type data) = false
                      /\ _is_log_type (_get_raw_type data) = false
                      /\ item_type_unhashable data = true).
  { simpl. intros e He.
    destruct (item_type_unhashable data) eqn:Hh.
    + unfold parse_dict in He.
      destruct (error_shape data); [discriminate|].
      destruct (thread_type (_get_raw_type data)); [discriminate|].
      destruct (turn_type (_get_raw_type data)); [discriminate|].
      destruct (_is_log_type (_get_raw_type data)); [discriminate|].
      auto.
    + destruct (ParserFacts.parse_dict_total data Hh) as [m Hm]. congruence. }
  split; [split|].
  - intros [e He]. exact (Hconds e He).
  - intros (Herr & Hthread & Hturn & Hlog & Hh).
    destruct (ParserFacts.parse_dict_raises data Herr Hthread Hturn Hlog Hh)
      as [message Hraise].
    simpl. eauto.
  - intros e He.
    destruct (Hconds e He) as (Herr & Hthread & Hturn & Hlog & Hh).
    destruct (ParserFacts.parse_dict_raises data Herr Hthread Hturn Hlog Hh)
      as [message Hraise].
    simpl in He. exists message. congruence.
Qed.

Lemma classify_final_value (data : dict) (m : Message) :
  parse_dict data = Ok m ->
  default_final_event_predicate m = error_shape data || final_raw data.
Proof.
  intros Hm.
  destruct (error_shape data) eqn:Herr.
  - unfold parse_dict in Hm. rewrite Herr in Hm. injection Hm as <-.
    reflexivity.
  - destruct (ParserFacts.parse_dict_ok data m Hm) as [Hraw Hkind].
    specialize (Hkind Herr).
    destruct m as [m|e]; simpl in *; rewrite ?Hkind, Hraw; reflexivity.
Qed.

(** X4. Whenever the classifier returns, the default terminal predicate
    on its result is decided by the raw object alone: the object is
    error-shaped, or [final_raw] accepts it. *)
Theorem terminal_decided_by_raw (data : dict) :
  item_type_unhashable data = false ->
  classify_final (JObj data) = Ok (error_shape data || final_raw data).
Proof.
  intros Hh. destruct (ParserFacts.parse_dict_total data Hh) as [m Hm].
  unfold classify_final. simpl. rewrite Hm. simpl.
  rewrite (classify_final_value data m Hm). reflexivity.
Qed.

Lemma item_event_needs_type (data : dict) :
  _get_raw_type data = None -> item_event data = None.
Proof. unfold item_event. intros ->. reflexivity. Qed.

(** X5. An object with no type, event or kind string whose status is one
    of the final statuses is classified as terminal. *)
Theorem terminal_status_without_type (data : dict) :
  _get_raw_type data = None ->
  mem_opt (status_of data) FINAL_STATUSES = true ->
  classify_final (JObj data) = Ok true.
Proof.
  intros Hnone Hstatus.
  assert (Hh : item_type_unhashable data = false).
  { unfold item_type_unhashable.
    rewrite (item_event_needs_type data Hnone). reflexivity. }
  destruct (ParserFacts.parse_dict_total data Hh) as [m Hm].
  unfold classify_final. simpl. rewrite Hm. simpl.
  rewrite (classify_final_value data m Hm).
  unfold final_raw. rewrite Hnone, Hstatus. simpl.
  destruct (is_True (Py.get "final" data)); rewrite orb_true_r; reflexivity.
Qed.

(** ** Session ids *)

Lemma scan_is_extract (raw : dict) :
  scan_session_keys SESSION_ID_KEYS raw = _extract_session_id raw.
Proof. reflexivity. Qed.

Lemma scan_first_string (keys : list string) (raw : dict) :
  scan_session_keys keys raw =
    hd_error
      (flat_map (fun key => match Py.get key raw with
                            | JStr value => [value]
                            | _ => []
                            end) keys).
Proof.
  induction keys as [|key keys IH]; [reflexivity|].
  simpl. destruct (Py.get key raw); simpl; auto.
Qed.

(** X6. The session id of an object is the value of the first key, in
    the fixed order of the seven session keys, that holds a string; keys
    holding anything else are passed over. *)
Theorem session_id_first_string (raw : dict) :
  _extract_session_id raw =
    hd_error
      (flat_map (fun key => match Py.get key raw with
                            | JStr value => [value]
                            | _ => []
                            end) SESSION_KEYS).
Proof.
  rewrite <- scan_is_extract. apply scan_first_string.
Qed.

(** X7. After a classified event the client's last session id is the one
    found in the event's object, and stays as it was when there is none:
    the scan of the raw object never adds anything to what the classifier
    extracted. *)
Theorem update_session_id_after_parse (last : option string) (data : dict)
    (m : Message) :
  parse_message (JObj data) = Ok m ->
  _update_session_id last m =
    match _extract_session_id data with
    | Some session_id => Some session_id
    | None => last
    end.
Proof.
  simpl. intros Hm.
  destruct (ParserFacts.parse_dict_ok data m Hm) as [Hraw _].
  destruct (parse_dict_views data m Hm) as [Hsession _].
  unfold _update_session_id. rewrite Hsession.
  destruct (_extract_session_id data) eqn:Hid; [reflexivity|].
  change (match m with
          | IsMessage m0 => CodexMessage.raw m0
          | IsEvent e => CodexEvent.event e
          end) with (message_raw m).
  rewrite Hraw, scan_is_extract, Hid. reflexivity.
Qed.

End Props.

(** ** The properties at work *)

Lemma classification_is_lossless_witness :
  let data :=
    [("type", JStr "thread.started"); ("thread_id", JStr "t-1")] in
  let m := IsEvent (CodexEvent.mk K_thread data (Some "thread.started")
                      None (Some "t-1") None) in
  message_raw m = data
  /\ event_type_of m = Some "thread.started"
  /\ session_id_of m = Some "t-1".
Proof.
  exact (classification_is_lossless (H := Py.plain_runtime)
           [("type", JStr "thread.started"); ("thread_id", JStr "t-1")]
           _ eq_refl).
Defined.

Lemma terminal_decided_by_raw_witness :
  classify_final (H := Py.plain_runtime)
    (JObj [("type", JStr "item.completed"); ("status", JStr "failed");
           ("item", JObj [("type", JStr "tool_call")])])
  = Ok true.
Proof.
  exact (terminal_decided_by_raw (H := Py.plain_runtime)
           [("type", JStr "item.completed"); ("status", JStr "failed");
            ("item", JObj [("type", JStr "tool_call")])] eq_refl).
Defined.

Lemma terminal_status_without_type_witness :
  classify_final (H := Py.plain_runtime)
    (JObj [("status", JStr "cancelled"); ("role", JStr "assistant")])
  = Ok true.
Proof.
  exact (terminal_status_without_type (H := Py.plain_runtime)
           [("status", JStr "cancelled"); ("role", JStr "assistant")]
           eq_refl eq_refl).
Defined.

Lemma update_session_id_after_parse_witness :
  let data := [("type", JStr "turn.started"); ("session", JInt 7);
               ("conversationId", JStr "c-9")] in
  _update_session_id (Some "old")
    (IsEvent (CodexEvent.mk K_turn data (Some "turn.started") None
                (Some "c-9") None))
  = Some "c-9".
Proof.
  exact (update_session_id_after_parse (H := Py.plain_runtime) (Some "old")
           [("type", JStr "turn.started"); ("session", JInt 7);
            ("conversationId", JStr "c-9")] _ eq_refl).
Defined.

End ParserProps.

(* ===================================================================== *)
(** * More on the stdout framing *)
(* ===================================================================== *)

Module FramingProps.

Import Framing Invariants.

Section Props.
Context `{!Py.Runtime}.
Variable limit : Z.




Lemma startswith_app (s t p : string) :
  Py.startswith s p = true -> Py.startswith (s +:+ t) p = true.
Proof.
  unfold Py.startswith. revert s.
  induction p as [|a p IH]; intros s Hp.
  - destruct (s +:+ t); reflexivity.
  - apply PyFacts.prefix_cons in Hp as (s' & -> & Hp).
    simpl. destruct (ascii_dec a a); [apply IH, Hp | congruence].
Qed.

Lemma read_json_line_buffer (r r' : reader) (json_line : string)
    (e : option exn) :
  read_json_line limit r json_line = (r', e) ->
  buffer_ok limit (json_buffer r) ->
  buffer_ok limit (json_buffer r').
Proof.
  unfold read_json_line, buffer_ok. intros Hstep Hold.
  repeat case_match; simplify_eq; simpl; auto.
  right. split; [|lia].
  destruct Hold as [Hempty|[Hstart _]].
  - rewrite Hempty. simpl.
    match goal with Hn : negb _ = false |- _ =>
      apply negb_false_iff in Hn; exact Hn end.
  - apply startswith_app, Hstart.
Qed.

(** X9. Between two lines the partial-JSON buffer is empty or holds text
    that starts with [{] and is no longer than the size limit, whatever
    the output was and whether or not the reading failed. *)
Theorem buffer_stays_within_limit (chunks : list string) (r : reader)
    (e : option exn) :
  read_chunks limit (mk_reader "" []) chunks = (r, e) ->
  buffer_ok limit (json_buffer r).
Proof.
  rewrite FramingFacts.read_chunks_flat.
  assert (Hgen : forall lines r0 r1 e1,
             read_json_lines limit r0 lines = (r1, e1) ->
             buffer_ok limit (json_buffer r0) ->
             buffer_ok limit (json_buffer r1)).
  { induction lines as [|l ls IH]; intros r0 r1 e1; simpl.
    - intros [= <- <-]. auto.
    - destruct (read_json_line limit r0 l) as [r2 [e2|]] eqn:Hstep.
      + intros [= <- <-]. eapply read_json_line_buffer; eauto.
      + intros Hrest Hold. eapply IH; [exact Hrest|].
        eapply read_json_line_buffer; eauto. }
  intros Hrun. eapply Hgen; [exact Hrun | left; reflexivity].
Qed.

End Props.

(** ** The properties at work *)


Lemma buffer_stays_within_limit_witness :
  buffer_ok 1024 "{ab{cd".
Proof.
  exact (buffer_stays_within_limit (H := Py.plain_runtime) 1024
           ["{ab"; "{cd"] (mk_reader "{ab{cd" []) None eq_refl).
Defined.

End FramingProps.

(* ===================================================================== *)
(** * The write side of the subprocess transport *)
(* ===================================================================== *)

Module SubprocessProps.

Import Subprocess.

Section Props.
Context `{!Py.Runtime}.

(** X10. A write hands the text to the child's stdin, and changes nothing
    else, exactly when the transport is ready, its stdin stream is open,
    the process has not exited, no exit error is recorded and the pipe
    takes it; in every other case it raises a connection error and stdin
    receives nothing. *)
Theorem write_when_writable (t : SubprocessCLITransport) (data : string) :
  (writable t = true ->
   exists p,
     write t data
     = (Ok tt,
        mk_transport (_ready t) (_stdin_stream t) p (_process t)
          (_exit_error t))
     /\ received p = received (stdin t) ++ [data])
  /\ (writable t = false ->
      exists message t',
        write t data = (Raise (CLIConnectionError message), t')
        /\ received (stdin t') = received (stdin t)).
Proof.
  unfold writable, write, exited, accepts, send.
  destruct t as [ready open [rcv flt] process exit_error]. simpl.
  split; intros Hw.
  - destruct ready, open; try discriminate; simpl in *.
    destruct process as [[code|]|], exit_error; try discriminate; simpl in *;
      destruct flt as [[[|n] e]|]; try discriminate; simpl;
      eexists; split; reflexivity.
  - destruct ready, open; simpl in *;
      try (eexists; eexists; split; reflexivity).
    destruct process as [[code|]|], exit_error; simpl in *;
      try (eexists; eexists; split; reflexivity);
      destruct flt as [[[|n] e]|]; try discriminate; simpl;
      eexists; eexists; split; reflexivity.
Qed.

(** X11. A failed write is final: from the state it leaves, every further
    write fails as well and leaves that state as it is. *)
Theorem failed_write_is_final (t t' : SubprocessCLITransport)
    (data : string) (e : exn) :
  write t data = (Raise e, t') ->
  forall data', exists e', write t' data' = (Raise e', t').
Proof.
  unfold write, send.
  destruct t as [ready open [rcv flt] process exit_error]. simpl.
  intros Hfail data'.
  destruct ready, open; simpl in *; simplify_eq; simpl;
    try (eexists; reflexivity).
  destruct process as [[code|]|], exit_error; simpl in *; simplify_eq; simpl;
    try (eexists; reflexivity);
    destruct flt as [[[|n] e0]|]; simpl in *; simplify_eq; simpl;
    eexists; reflexivity.
Qed.

(** X12. After [end_input] or [close] a write fails as not ready and
    stdin receives nothing; ending the input twice or closing twice is the
    same as doing it once, and a closed transport is not ready. *)
Theorem no_write_after_end_or_close (t : SubprocessCLITransport)
    (data : string) :
  write (end_input t) data
  = (Raise (CLIConnectionError "Transport is not ready for writing"),
     end_input t)
  /\ write (close t) data
     = (Raise (CLIConnectionError "Transport is not ready for writing"),
        close t)
  /\ end_input (end_input t) = end_input t
  /\ close (close t) = close t
  /\ is_ready (close t) = false.
Proof.
  unfold write, end_input, close, is_ready.
  destruct t as [ready open p process exit_error]. simpl.
  repeat split; destruct open, process; simpl;
    rewrite ?orb_true_r; reflexivity.
Qed.

(** ** [stream_input] *)

Lemma stream_chunks_prefix (_closed : bool) (stream : list json)
    (t t' : SubprocessCLITransport) (r : result unit) :
  stream_chunks _closed t stream = (r, t') ->
  exists k,
    k <= length stream
    /\ received (stdin t')
       = received (stdin t) ++ map chunk_text (take k stream).
Proof.
  revert t. induction stream as [|message rest IH]; intros t; simpl.
  - intros [= <- <-]. exists 0. rewrite app_nil_r. auto.
  - destruct _closed.
    { intros [= <- <-]. exists 0. simpl. rewrite app_nil_r. split; [lia|auto]. }
    destruct (write t (chunk_text message)) as [[[]|e] t1] eqn:Hwrite.
    + intros Hrest. destruct (IH _ Hrest) as (k & Hk & Hrcv).
      destruct (writable t) eqn:Hw.
      * destruct (proj1 (write_when_writable t (chunk_text message)) Hw)
          as (p & Hok & Hp).
        rewrite Hok in Hwrite. injection Hwrite as <-.
        exists (S k). split; [lia|]. simpl in *.
        rewrite Hrcv, Hp, <- app_assoc. reflexivity.
      * destruct (proj2 (write_when_writable t (chunk_text message)) Hw)
          as (msg & t2 & Hfail & _). congruence.
    + intros [= <- <-]. exists 0. simpl. rewrite app_nil_r. split; [lia|].
      destruct (writable t) eqn:Hw.
      * destruct (proj1 (write_when_writable t (chunk_text message)) Hw)
          as (p & Hok & _). congruence.
      * destruct (proj2 (write_when_writable t (chunk_text message)) Hw)
          as (msg & t2 & Hfail & Hsame). congruence.
Qed.

(** X13. Whatever the transport's state and however the writing ends,
    [stream_input] hands stdin a prefix of the input chunks, each
    rendered once and in the order given. *)
Theorem stream_input_sends_prefix (_closed : bool)
    (t : SubprocessCLITransport) (stream : list json) :
  exists k,
    k <= length stream
    /\ received (stdin (stream_input _closed t stream))
       = received (stdin t) ++ map chunk_text (take k stream).
Proof.
  unfold stream_input.
  destruct (stream_chunks _closed t stream) as [[[]|e] t'] eqn:Hrun;
    destruct (stream_chunks_prefix _ _ _ _ _ Hrun) as (k & Hk & Hrcv);
    exists k; split; auto.
  unfold end_input. destruct (_stdin_stream t'); exact Hrcv.
Qed.

Lemma stream_chunks_all (stream : list json) (rcv : list string)
    (process : option (option Z)) :
  match process with Some (Some _) => False | _ => True end ->
  stream_chunks false (mk_transport true true (mk_pipe rcv None) process None)
    stream
  = (Ok tt,
     mk_transport true true
       (mk_pipe (rcv ++ map chunk_text stream) None) process None).
Proof.
  intros Halive. revert rcv.
  induction stream as [|message rest IH]; intros rcv; simpl.
  - rewrite app_nil_r. reflexivity.
  - unfold write at 1. simpl.
    destruct process as [[code|]|]; try contradiction; simpl;
      rewrite IH, <- app_assoc; reflexivity.
Qed.

(** X14. On a ready transport whose process runs and whose pipe does not
    fail, [stream_input] writes every chunk, in order and without a
    separator, and then ends the input: the stdin stream is closed and
    the transport stays ready. *)
Theorem stream_input_sends_all (t : SubprocessCLITransport)
    (stream : list json) :
  _ready t = true -> _stdin_stream t = true -> exited t = false ->
  _exit_error t = None -> fault (stdin t) = None ->
  stream_input false t stream
  = mk_transport true false
      (mk_pipe (received (stdin t) ++ map chunk_text stream) None)
      (_process t) None.
Proof.
  destruct t as [ready open [rcv flt] process exit_error]. simpl.
  intros -> -> Halive -> ->. unfold stream_input.
  rewrite stream_chunks_all; [reflexivity|].
  unfold exited in Halive. simpl in Halive.
  destruct process as [[code|]|]; [discriminate | exact I | exact I].
Qed.

End Props.

(** ** The properties at work *)

Lemma failed_write_is_final_witness :
  let failed :=
    mk_transport false true
      (mk_pipe ["a"] (Some (0, OtherError "Broken pipe"))) (Some None)
      (Some (CLIConnectionError
               "Failed to write to process stdin: Broken pipe")) in
  exists e',
    write (H := Py.plain_runtime) failed "c" = (Raise e', failed).
Proof.
  exact (failed_write_is_final (H := Py.plain_runtime)
           (mk_transport true true
              (mk_pipe ["a"] (Some (0, OtherError "Broken pipe")))
              (Some None) None)
           _ "b" _ eq_refl "c").
Defined.

Lemma stream_input_sends_all_witness :
  stream_input (H := Py.plain_runtime) false
    (mk_transport true true (mk_pipe [] None) (Some None) None)
    [JStr "first "; JObj []; JStr "last"]
  = mk_transport true false (mk_pipe ["first "; "{}"; "last"] None)
      (Some None) None.
Proof.
  exact (stream_input_sends_all (H := Py.plain_runtime)
           (mk_transport true true (mk_pipe [] None) (Some None) None)
           [JStr "first "; JObj []; JStr "last"]
           eq_refl eq_refl eq_refl eq_refl eq_refl).
Defined.

End SubprocessProps.

(* ===================================================================== *)
(** * More on the engine's handlers *)
(* ===================================================================== *)

Module HandlerProps.

Import Engine AppServer.

Section Props.
Context `{!Py.Runtime}.
Variable options : CodexAgentOptions.

(** ** Every server request gets one answer *)

Lemma send_ready (t : Transport) (payload : dict) :
  ready t = true ->
  _send t payload
  = (Ok tt,
     mk_transport true
       (written t
        ++ [Py.json_dumps (JObj payload) +:+ String Framing.line_feed ""])).
Proof. unfold _send, write. intros ->. reflexivity. Qed.

Lemma server_reply_shape (request_id : string) (method : json)
    (params envelope : dict) :
  server_reply options request_id method params = Ok envelope ->
  (exists value, envelope = result_envelope request_id value)
  \/ (exists message, envelope = error_envelope request_id (-32601) message).
Proof.
  unfold server_reply, Errors.bind, result_envelope, error_envelope.
  intros Hreply.
  repeat case_match; simplify_eq; eauto.
Qed.

Lemma handle_server_request_ready (t : Transport) (message : dict) :
  ready t = true ->
  _handle_server_request options t message =
    _send t
      (match
         server_reply options (Py.to_str (Py.get "id" message))
           (Py.get "method" message)
           (match Py.get "params" message with JObj p => p | _ => [] end)
       with
       | Ok envelope => envelope
       | Raise e =>
           error_envelope (Py.to_str (Py.get "id" message)) (-32603)
             (str_exn e)
       end).
Proof.
  intros Hready. unfold _handle_server_request.
  destruct (server_reply _ _ _ _) as [envelope|e]; [|reflexivity].
  rewrite (send_ready t envelope Hready). reflexivity.
Qed.

(** X15. On a ready transport every server request is answered with
    exactly one line and the handler task ends normally, whatever the
    method, the params and the callbacks do: the line is an envelope with
    the request's id that holds either a [result] or an [error], never
    both. *)
Theorem server_request_answered_once (t : Transport) (message : dict) :
  ready t = true ->
  exists envelope : dict,
    _handle_server_request options t message
    = (Ok tt,
       mk_transport true
         (written t
          ++ [Py.json_dumps (JObj envelope) +:+ String Framing.line_feed ""]))
    /\ Py.get "id" envelope = JStr (Py.to_str (Py.get "id" message))
    /\ Py.has_key "result" envelope = negb (Py.has_key "error" envelope).
Proof.
  intros Hready.
  rewrite (handle_server_request_ready t message Hready).
  destruct (server_reply _ _ _ _) as [envelope|e] eqn:Hreply.
  - exists envelope. split; [apply send_ready, Hready|].
    destruct (server_reply_shape _ _ _ _ Hreply) as [[value ->]|[msg ->]];
      split; reflexivity.
  - eexists. split; [apply send_ready, Hready|]. split; reflexivity.
Qed.

(** X16. A handler that raises, whether over a callback's unusable answer
    or a missing tool name, never reaches the dispatch loop: the request
    is answered with the error envelope of code -32603 whose message is
    the exception's text.  A string method the engine does not know gets
    code -32601 and the message naming the method. *)
Theorem failures_become_error_replies (t : Transport) (message : dict) :
  ready t = true ->
  let request_id := Py.to_str (Py.get "id" message) in
  let params := match Py.get "params" message with JObj p => p | _ => [] end in
  let answer (envelope : dict) :=
    _handle_server_request options t message
    = (Ok tt,
       mk_transport true
         (written t
          ++ [Py.json_dumps (JObj envelope) +:+ String Framing.line_feed ""]))
  in
  (forall e,
     server_reply options request_id (Py.get "method" message) params
     = Raise e ->
     answer (error_envelope request_id (-32603) (str_exn e)))
  /\ (forall method,
        Py.get "method" message = JStr method ->
        Py.mem method
          ["item/tool/call"; "item/tool/requestUserInput";
           "item/commandExecution/requestApproval";
           "item/fileChange/requestApproval"; "execCommandApproval";
           "applyPatchApproval"] = false ->
        answer (error_envelope request_id (-32601)
                  ("Method " +:+ method +:+ " not supported"))).
Proof.
  intros Hready request_id params answer. subst answer. simpl.
  split.
  - intros e Hraise.
    rewrite (handle_server_request_ready t message Hready).
    fold request_id params. rewrite Hraise. apply send_ready, Hready.
  - intros method Hmethod Hunknown.
    rewrite (handle_server_request_ready t message Hready).
    fold request_id params. rewrite Hmethod.
    unfold Py.mem in Hunknown. simpl in Hunknown.
    repeat (apply orb_false_iff in Hunknown as [? Hunknown]).
    unfold server_reply. simpl.
    repeat match goal with
           | Hx : String.eqb method _ = false |- _ => rewrite Hx; clear Hx
           end.
    simpl. apply send_ready, Hready.
Qed.

(** ** Dynamic tools *)


Lemma text_parts_blocks (texts : list string) :
  text_parts (map text_block texts) = texts.
Proof.
  induction texts as [|text texts IH]; [reflexivity|].
  simpl. rewrite IH. reflexivity.
Qed.

(** X18. A tool result whose [content] is a non-empty list of text blocks
    is normalised to the blocks' texts joined by newlines; a string
    result is passed on as it is. *)
Theorem tool_output_joins_text_blocks (text : string) (texts : list string)
    (extra : dict) :
  _normalize_tool_output
    (JObj (("content", JArr (map text_block (text :: texts))) :: extra))
  = String.concat (String Framing.line_feed "") (text :: texts)
  /\ _normalize_tool_output (JStr text) = text.
Proof.
  split; [|reflexivity].
  unfold _normalize_tool_output.
  change (Py.has_key "content" (("content", JArr (map text_block (text :: texts))) :: extra))
    with true.
  change (Py.get "content" (("content", JArr (map text_block (text :: texts))) :: extra))
    with (JArr (map text_block (text :: texts))).
  cbv iota. rewrite text_parts_blocks. reflexivity.
Qed.

(** ** Approvals *)

Lemma resolve_outcomes (kind callback_name : string) (params : dict)
    (resolved : ApprovalDecision + dict) :
  _resolve_approval_decision options kind params callback_name = Ok resolved ->
  resolved = inl allow \/ resolved = inl deny
  \/ exists callback d,
       approval_callback options kind = Some callback
       /\ callback params = Ok (V_dict d) /\ resolved = inr d.
Proof.
  unfold _resolve_approval_decision, _fallback_decision_from_policy,
    _normalize_approval_decision, Errors.bind.
  intros Hres.
  repeat case_match; simplify_eq;
    try (left; reflexivity); try (right; left; reflexivity).
  right; right. eexists; eexists. repeat split; eassumption.
Qed.

(** X20. What an approval handler answers is either the dict its callback
    returned, passed on as it is, or a decision in the method's own two
    words: [accept] or [deny] for the command and file-change methods,
    [approved] or [denied] for the legacy ones.  A deferred decision never
    reaches the wire. *)
Theorem approval_reply_vocabulary (params reply : dict) :
  let passed_on (kind : string) :=
    exists callback,
      approval_callback options kind = Some callback
      /\ callback params = Ok (V_dict reply) in
  (_handle_command_approval options params = Ok reply ->
   reply = [("decision", JStr "accept")] \/ reply = [("decision", JStr "deny")]
   \/ passed_on "command")
  /\ (_handle_file_change_approval options params = Ok reply ->
      reply = [("decision", JStr "accept")]
      \/ reply = [("decision", JStr "deny")]
      \/ passed_on "file_change")
  /\ (forall method,
        _handle_legacy_approval options method params = Ok reply ->
        reply = [("decision", JStr "approved")]
        \/ reply = [("decision", JStr "denied")]
        \/ passed_on (if String.eqb method "execCommandApproval"
                      then "command" else "file_change")).
Proof.
  intros passed_on. subst passed_on.
  unfold _handle_command_approval, _handle_file_change_approval,
    _handle_legacy_approval, Errors.bind.
  repeat split; [intros Hreply | intros Hreply | intros method Hreply];
    match type of Hreply with
    | match ?r with _ => _ end = _ =>
        destruct r as [resolved|e] eqn:Hres; [|discriminate]
    end;
    injection Hreply as <-;
    destruct (resolve_outcomes _ _ _ _ Hres)
      as [->|[->|(callback & d & Hcb & Hcall & ->)]];
    simpl; eauto.
Qed.

(** X21. When nothing decides an approval request, the approval policy
    does: with no callback configured for the kind, or with a callback
    that returns [None], each handler answers its own word for allow
    under policy [never] and its own word for deny under any other
    policy, or none. *)
Theorem policy_decides_when_undecided (method : string) (params : dict) :
  let undecided (kind : string) :=
    match approval_callback options kind with
    | None => True
    | Some callback => callback params = Ok V_None
    end in
  let allowed := bool_decide (ask_for_approval options = Some "never") in
  (undecided "command" ->
   _handle_command_approval options params
   = Ok [("decision", JStr (if allowed then "accept" else "deny"))])
  /\ (undecided "file_change" ->
      _handle_file_change_approval options params
      = Ok [("decision", JStr (if allowed then "accept" else "deny"))])
  /\ (undecided (if String.eqb method "execCommandApproval" then "command"
                 else "file_change") ->
      _handle_legacy_approval options method params
      = Ok [("decision", JStr (if allowed then "approved" else "denied"))]).
Proof.
  intros undecided allowed. subst undecided allowed.
  assert (Hpolicy :
            _fallback_decision_from_policy options
            = if bool_decide (ask_for_approval options = Some "never")
              then allow else deny).
  { unfold _fallback_decision_from_policy.
    destruct (ask_for_approval options) as [policy|].
    - destruct (String.eqb_spec policy "never") as [->|Hne].
      + rewrite bool_decide_eq_true_2 by reflexivity. reflexivity.
      + rewrite bool_decide_eq_false_2 by congruence. reflexivity.
    - rewrite bool_decide_eq_false_2 by discriminate. reflexivity. }
  assert (Hresolve : forall kind callback_name,
            match approval_callback options kind with
            | None => True
            | Some callback => callback params = Ok V_None
            end ->
            _resolve_approval_decision options kind params callback_name
            = Ok (inl (_fallback_decision_from_policy options))).
  { intros kind callback_name Hkind. unfold _resolve_approval_decision.
    destruct (approval_callback options kind) as [callback|];
      [rewrite Hkind|]; reflexivity. }
  unfold _handle_command_approval, _handle_file_change_approval,
    _handle_legacy_approval.
  repeat split; intros Hkind; rewrite (Hresolve _ _ Hkind), Hpolicy;
    destruct (bool_decide (ask_for_approval options = Some "never"));
    reflexivity.
Qed.

End Props.

Lemma tool_map_snoc (tools : list CodexTool) (t : CodexTool) :
  tool_map_of (tools ++ [t]) = <[name t := t]> (tool_map_of tools).
Proof. unfold tool_map_of. rewrite foldl_app. reflexivity. Qed.

(** X19. The tool map finds, for a name, the last tool of the configured
    list that bears it: a later registration replaces an earlier one, and
    a name no tool bears is absent. *)
Theorem tool_map_last_wins (tools : list CodexTool) (key : string) :
  tool_map_of tools !! key
  = find (fun t => String.eqb (name t) key) (rev tools).
Proof.
  induction tools as [|t tools IH] using rev_ind; [reflexivity|].
  rewrite tool_map_snoc, rev_app_distr. simpl.
  destruct (String.eqb_spec (name t) key) as [->|Hne].
  - apply lookup_insert_eq.
  - rewrite lookup_insert_ne by exact Hne. exact IH.
Qed.

(** ** The properties at work *)

Lemma server_request_answered_once_witness :
  let message := [("id", JInt 3); ("method", JStr "thread/fork")] in
  exists envelope : dict,
    _handle_server_request (H := Py.plain_runtime) default_options
      (mk_transport true []) message
    = (Ok tt,
       mk_transport true
         ([] ++ [Py.json_dumps (Runtime := Py.plain_runtime) (JObj envelope)
                 +:+ String Framing.line_feed ""]))
    /\ Py.get "id" envelope = JStr "3"
    /\ Py.has_key "result" envelope = negb (Py.has_key "error" envelope).
Proof.
  exact (server_request_answered_once (H := Py.plain_runtime) default_options
           (mk_transport true [])
           [("id", JInt 3); ("method", JStr "thread/fork")] eq_refl).
Defined.

Lemma failures_become_error_replies_witness :
  let answered (options : CodexAgentOptions) (message envelope : dict) :=
    _handle_server_request (H := Py.plain_runtime) options
      (mk_transport true []) message
    = (Ok tt,
       mk_transport true
         [Py.json_dumps (Runtime := Py.plain_runtime) (JObj envelope)
          +:+ String Framing.line_feed ""]) in
  answered default_options
    [("id", JStr "s1"); ("method", JStr "item/tool/call");
     ("params", JObj [("arguments", JObj [])])]
    (error_envelope "s1" (-32603) "Dynamic tool call missing tool name")
  /\ answered default_options
       [("id", JStr "s2"); ("method", JStr "thread/fork")]
       (error_envelope "s2" (-32601) "Method thread/fork not supported").
Proof.
  intros answered. split.
  - apply (proj1 (failures_become_error_replies (H := Py.plain_runtime)
                    default_options (mk_transport true [])
                    [("id", JStr "s1"); ("method", JStr "item/tool/call");
                     ("params", JObj [("arguments", JObj [])])] eq_refl)
             (CLIConnectionError "Dynamic tool call missing tool name")).
    reflexivity.
  - apply (proj2 (failures_become_error_replies (H := Py.plain_runtime)
                    default_options (mk_transport true [])
                    [("id", JStr "s2"); ("method", JStr "thread/fork")]
                    eq_refl) "thread/fork"); reflexivity.
Defined.


End HandlerProps.

(* ===================================================================== *)
(** * More on requests and the dispatch loop *)
(* ===================================================================== *)

Module RequestProps.

Import Engine AppServer.

(** ** Request ids *)

Lemma norm_proper (d : Decimal.int) :
  Decimal.norm d <> Decimal.Pos Decimal.Nil
  /\ Decimal.norm d <> Decimal.Neg Decimal.Nil.
Proof.
  destruct d as [d|d]; simpl; unfold Decimal.unorm;
    destruct (Decimal.nzhead d); split; discriminate.
Qed.

Lemma str_int_inj (a b : Z) : Py.str_int a = Py.str_int b -> a = b.
Proof.
  unfold Py.str_int. intros Heq.
  apply DecimalZ.to_int_inj.
  assert (Hnorm : forall z, Z.to_int z = Decimal.norm (Z.to_int z)).
  { intros z. rewrite <- DecimalZ.to_of, DecimalZ.of_to. reflexivity. }
  assert (Hparse : forall z,
             NilZero.int_of_string (NilZero.string_of_int (Z.to_int z))
             = Some (Z.to_int z)).
  { intros z. apply NilZero.isi; rewrite Hnorm; apply norm_proper. }
  apply (f_equal NilZero.int_of_string) in Heq.
  rewrite !Hparse in Heq. congruence.
Qed.

Lemma request_id_inj (a b : Z) : request_id_of a = request_id_of b -> a = b.
Proof.
  unfold request_id_of. simpl. intros [= Heq]. apply str_int_inj, Heq.
Qed.

Section Props.
Context `{!Py.Runtime}.
Variable options : CodexAgentOptions.

Lemma fail_pending_keys (c : AppServerClient) (error : exn)
    (request_id : string) :
  is_Some (_pending (_fail_pending_requests c error) !! request_id)
  <-> is_Some (_pending c !! request_id).
Proof.
  unfold _fail_pending_requests. simpl. rewrite lookup_fmap.
  rewrite fmap_is_Some. reflexivity.
Qed.

Lemma dispatch_keys (c : AppServerClient) (message : dict)
    (request_id : string) :
  is_Some (_pending (dispatch c message).1 !! request_id) ->
  is_Some (_pending c !! request_id).
Proof.
  unfold dispatch.
  destruct (is_response message).
  - destruct (_pending c !! Py.to_str (Py.get "id" message)) eqn:Hl;
      simpl; auto.
    intros Hsome.
    destruct (decide (Py.to_str (Py.get "id" message) = request_id))
      as [<-|Hne].
    + rewrite Hl. eauto.
    + rewrite lookup_insert_ne in Hsome by exact Hne. exact Hsome.
  - repeat case_match; simpl; auto.
Qed.

Lemma dispatch_counter (c : AppServerClient) (message : dict) :
  _request_counter (dispatch c message).1 = _request_counter c.
Proof. unfold dispatch. repeat case_match; reflexivity. Qed.

Lemma finally_keys (c : AppServerClient) (request_id : string) :
  is_Some (_pending (finally c) !! request_id) ->
  is_Some (_pending c !! request_id).
Proof.
  unfold finally. case_decide; simpl; auto.
  rewrite lookup_fmap, fmap_is_Some. auto.
Qed.

Lemma step_keys (c : AppServerClient) (seg : segment) (request_id : string) :
  is_Some (_pending (read_loop_step c seg).1 !! request_id) ->
  is_Some (_pending c !! request_id).
Proof.
  unfold read_loop_step.
  destruct (_read_loop_phase c), seg; simpl; auto;
    try apply finally_keys.
  - destruct (_closed c); [apply finally_keys | apply dispatch_keys].
  - rewrite lookup_fmap, fmap_is_Some. auto.
Qed.

Lemma step_counter (c : AppServerClient) (seg : segment) :
  _request_counter (read_loop_step c seg).1 = _request_counter c.
Proof.
  unfold read_loop_step, finally.
  destruct (_read_loop_phase c), seg; simpl; auto;
    try (case_decide; reflexivity).
  destruct (_closed c); [case_decide; reflexivity | apply dispatch_counter].
Qed.

(** X22. Request ids are never reused: every entry of the pending table
    belongs to an id issued so far, in the engine as constructed and
    after every registration, every stretch of the dispatch loop and
    every removal; and the id a registration issues is not in the table
    before, so that no other request's entry is replaced. *)
Theorem request_ids_are_fresh :
  (forall t, pending_issued (init t))
  /\ (forall c method params,
        pending_issued c ->
        _pending c !! (register c method params).1.2 = None
        /\ pending_issued (register c method params).1.1)
  /\ (forall c seg, pending_issued c -> pending_issued (read_loop_step c seg).1)
  /\ (forall c request_id,
        pending_issued c -> pending_issued (forget c request_id)).
Proof.
  unfold pending_issued. split; [|split; [|split]].
  - intros t. simpl. split; [lia|].
    intros request_id [x Hx]. rewrite lookup_empty in Hx. discriminate.
  - intros c method params [Hpos Hall]. simpl.
    change ("req_" +:+ Py.str_int (_request_counter c + 1))
      with (request_id_of (_request_counter c + 1)).
    split; [|split; [lia|]].
    + destruct (_pending c !! request_id_of (_request_counter c + 1)) eqn:Hl;
        [|reflexivity].
      destruct (Hall _ (mk_is_Some _ _ Hl)) as (k & Hk & Heq).
      apply request_id_inj in Heq. lia.
    + intros request_id Hsome.
      destruct (decide (request_id_of (_request_counter c + 1) = request_id))
        as [<-|Hne].
      * exists (_request_counter c + 1)%Z. split; [lia|reflexivity].
      * rewrite lookup_insert_ne in Hsome by exact Hne.
        destruct (Hall _ Hsome) as (k & Hk & ->).
        exists k. split; [lia|reflexivity].
  - intros c seg [Hpos Hall]. rewrite step_counter. split; [exact Hpos|].
    intros request_id Hsome. apply Hall, (step_keys _ _ _ Hsome).
  - intros c request_id [Hpos Hall]. simpl. split; [exact Hpos|].
    intros rid Hsome.
    destruct (decide (request_id = rid)) as [<-|Hne].
    + rewrite lookup_delete_eq in Hsome. destruct Hsome; discriminate.
    + rewrite lookup_delete_ne in Hsome by exact Hne. auto.
Qed.

(** ** Completion of a request *)

(** X23. A response completes the request it is addressed to and no other:
    that request's event is set and its outcome stored (the wrapped error
    when the frame carries [error], the [result] member otherwise, an
    empty dict when it has none), every other entry of both tables is as
    before, and nothing is queued for the consumer. *)
Theorem response_completes_its_request (c : AppServerClient)
    (message : dict) :
  is_response message = true ->
  is_Some (_pending c !! Py.to_str (Py.get "id" message)) ->
  let request_id := Py.to_str (Py.get "id" message) in
  let c' := (dispatch c message).1 in
  event_is_set c' request_id = true
  /\ _pending_results c' !! request_id
     = Some (if Py.has_key "error" message
             then Raise (error_response message)
             else Ok (Py.get_default "result" (JObj []) message))
  /\ (forall other,
        other <> request_id ->
        _pending c' !! other = _pending c !! other
        /\ _pending_results c' !! other = _pending_results c !! other)
  /\ _message_send c' = _message_send c.
Proof.
  intros Hresp [flag Hflag] request_id c'. subst c' request_id.
  unfold dispatch, event_is_set. rewrite Hresp, Hflag. simpl.
  rewrite !lookup_insert_eq. repeat split; try reflexivity;
    apply lookup_insert_ne; congruence.
Qed.



(** ** The end of the stream *)

(** X25. Failing the pending requests sets the event of every request in
    the pending table and stores the error as its outcome; ids that are
    not pending keep whatever outcome was stored for them. *)
Theorem fail_pending_reaches_all (c : AppServerClient) (error : exn)
    (request_id : string) :
  let c' := _fail_pending_requests c error in
  (is_Some (_pending c !! request_id) ->
   event_is_set c' request_id = true
   /\ _pending_results c' !! request_id = Some (Raise error))
  /\ (_pending c !! request_id = None ->
      _pending c' !! request_id = None
      /\ _pending_results c' !! request_id = _pending_results c !! request_id).
Proof.
  intros c'. subst c'. unfold _fail_pending_requests, event_is_set. simpl.
  split.
  - intros [flag Hflag]. rewrite lookup_fmap, Hflag. simpl.
    split; [reflexivity|].
    apply lookup_union_Some_l. rewrite lookup_fmap, Hflag. reflexivity.
  - intros Hnone. rewrite lookup_fmap, Hnone. simpl.
    split; [reflexivity|].
    apply lookup_union_r. rewrite lookup_fmap, Hnone. reflexivity.
Qed.



(** ** The consumer's queue *)

Lemma dispatch_queue (c : AppServerClient) (message : dict) :
  _message_send (dispatch c message).1 = _message_send c ++ queued message
  /\ _read_loop_phase (dispatch c message).1 = _read_loop_phase c
  /\ _closed (dispatch c message).1 = _closed c.
Proof.
  unfold dispatch, queued.
  destruct (is_response message).
  - destruct (_pending c !! Py.to_str (Py.get "id" message)); simpl;
      rewrite app_nil_r; auto.
  - repeat case_match; simpl; rewrite ?app_nil_r; auto.
Qed.

Lemma read_loop_cons (c : AppServerClient) (seg : segment)
    (rest : list segment) :
  (read_loop c (seg :: rest)).1
  = (read_loop (read_loop_step c seg).1 rest).1.
Proof.
  simpl. destruct (read_loop_step c seg) as [c1 e1]. simpl.
  destruct (read_loop c1 rest). reflexivity.
Qed.

Lemma read_loop_frames (frames : list dict) (c : AppServerClient) :
  _read_loop_phase c = Reading ->
  _closed c = false ->
  _message_send (read_loop c (map Frame frames)).1
  = _message_send c ++ flat_map queued frames
  /\ _read_loop_phase (read_loop c (map Frame frames)).1 = Reading
  /\ _closed (read_loop c (map Frame frames)).1 = false.
Proof.
  revert c. induction frames as [|message frames IH]; intros c Hphase Hopen.
  - simpl. rewrite app_nil_r. auto.
  - cbn [map]. rewrite read_loop_cons.
    unfold read_loop_step. rewrite Hphase, Hopen.
    destruct (dispatch_queue c message) as (Hq & Hp & Hc).
    rewrite Hphase in Hp. rewrite Hopen in Hc.
    destruct (IH _ Hp Hc) as (Hq' & Hp' & Hc').
    split; [|split; assumption].
    rewrite Hq', Hq, <- app_assoc. reflexivity.
Qed.

(** X27. While the loop runs on an engine that is not closed, what it
    sends to the consumer's queue is, frame by frame and in arrival
    order, the normalised notification for a frame with [method] and no
    [id], the frame itself when it has neither [method] nor the shape of
    a response, and nothing for responses and server requests. *)
Theorem frames_queued_in_arrival_order (c : AppServerClient)
    (frames : list dict) :
  _read_loop_phase c = Reading ->
  _closed c = false ->
  _message_send (read_loop c (map Frame frames)).1
  = _message_send c ++ flat_map queued frames.
Proof.
  intros Hphase Hopen. apply (read_loop_frames frames c Hphase Hopen).
Qed.

Lemma receive_plain_run (messages : list dict) :
  forallb (fun m => negb (Stream.is_control m)) messages = true ->
  receive (messages ++ [Stream.end_marker]) = (messages, Stream.Stopped).
Proof.
  induction messages as [|m messages IH]; intros Hall; [reflexivity|].
  simpl in Hall. apply andb_true_iff in Hall as [Hm Hrest].
  apply negb_true_iff in Hm. unfold Stream.is_control in Hm.
  apply orb_false_iff in Hm as [Hend Herr].
  simpl. rewrite Hend, Herr, (IH Hrest). reflexivity.
Qed.

Lemma finally_queue (c : AppServerClient) :
  _message_send (finally c) = _message_send c ++ [Stream.end_marker].
Proof. unfold finally. case_decide; reflexivity. Qed.

(** X28. From a fresh queue, a run of frames followed by the end of the
    stream gives the consumer of [run_query] exactly the queued events of
    those frames, in arrival order, and then stops it silently, provided
    none of these events holds the reserved control key with the value
    [end] or [error]. *)
Theorem consumer_gets_events_then_stops (c : AppServerClient)
    (frames : list dict) :
  _read_loop_phase c = Reading ->
  _closed c = false ->
  _message_send c = [] ->
  forallb (fun m => negb (Stream.is_control m)) (flat_map queued frames)
  = true ->
  receive (_message_send (read_loop c (map Frame frames ++ [Finally])).1)
  = (flat_map queued frames, Stream.Stopped).
Proof.
  intros Hphase Hopen Hfresh Hplain.
  assert (Happ : forall l1 l2 c0,
             (read_loop c0 (l1 ++ l2)).1
             = (read_loop (read_loop c0 l1).1 l2).1).
  { induction l1 as [|seg l1 IH]; intros l2 c0; [reflexivity|].
    rewrite <- app_comm_cons, !read_loop_cons. apply IH. }
  rewrite Happ.
  destruct (read_loop_frames frames c Hphase Hopen) as (Hq & Hp & Hc).
  rewrite read_loop_cons. unfold read_loop_step at 1. rewrite Hp.
  cbn [read_loop fst]. rewrite finally_queue, Hq, Hfresh. simpl.
  apply receive_plain_run, Hplain.
Qed.

(** ** Notifications *)

Lemma replace_removes (s : string) (a b : ascii) :
  a <> b -> Py.contains (Py.replace s a b) (String a "") = false.
Proof.
  intros Hne. induction s as [|c s IH]; [reflexivity|].
  simpl. rewrite IH, orb_false_r.
  destruct (Ascii.eqb_spec c a) as [->|Hca].
  - destruct (ascii_dec a b) as [Heq|_]; [contradiction | reflexivity].
  - destruct (ascii_dec a c) as [Heq|_]; [congruence | reflexivity].
Qed.

Lemma get_filter_other (key : string) (params : dict) :
  key <> "type" ->
  Py.get key (filter (fun kv => negb (String.eqb kv.1 "type")) params)
  = Py.get key params.
Proof.
  intros Hne. induction params as [|[k v] params IH]; [reflexivity|].
  rewrite filter_cons. cbn [fst].
  destruct (String.eqb_spec k "type") as [->|Hk].
  - rewrite decide_False by (cbn [negb]; exact id).
    cbn [Py.get].
    destruct (String.eqb_spec "type" key) as [Heq|_]; [congruence | exact IH].
  - rewrite decide_True by (cbn [negb]; exact I).
    cbn [Py.get]. destruct (String.eqb k key); [reflexivity | exact IH].
Qed.

(** X29. A notification with a string method and dict params becomes an
    event that keeps every member of the params; its [type] is the
    params' own [type] when they have one, and otherwise the method with
    each slash turned into a dot, in which no slash is left. *)
Theorem notification_becomes_event (message params : dict)
    (method : string) :
  Py.get "method" message = JStr method ->
  Py.get "params" message = JObj params ->
  let event := _normalize_notification message in
  (forall key, key <> "type" -> Py.get key event = Py.get key params)
  /\ Py.get "type" event
     = (if Py.has_key "type" params then Py.get "type" params
        else JStr (Py.replace method "/" "."))
  /\ Py.contains (Py.replace method "/" ".") "/" = false.
Proof.
  intros Hmethod Hparams event. subst event.
  unfold _normalize_notification. rewrite Hmethod, Hparams.
  split; [|split].
  - intros key Hne. cbn [Py.get].
    destruct (String.eqb_spec "type" key) as [Heq|_]; [congruence|].
    apply get_filter_other, Hne.
  - reflexivity.
  - apply replace_removes. discriminate.
Qed.

End Props.

(** ** The properties at work *)

Lemma response_completes_its_request_witness :
  let c :=
    mk_client (mk_transport true []) [] true false 2
      (<["req_1" := false]> (<["req_2" := false]> ∅)) ∅ Reading in
  let message := [("id", JStr "req_2"); ("result", JObj [("ok", JBool true)])] in
  let c' := (dispatch (H := Py.plain_runtime) c message).1 in
  event_is_set c' "req_2" = true
  /\ _pending_results c' !! "req_2" = Some (Ok (JObj [("ok", JBool true)]))
  /\ (forall other,
        other <> "req_2" ->
        _pending c' !! other = _pending c !! other
        /\ _pending_results c' !! other = _pending_results c !! other)
  /\ _message_send c' = _message_send c.
Proof.
  intros c message.
  apply (response_completes_its_request (H := Py.plain_runtime) c message
           eq_refl).
  vm_compute. eauto.
Defined.



Lemma frames_queued_in_arrival_order_witness :
  let c := start_read_loop (init (mk_transport true [])) in
  _message_send
    (read_loop (H := Py.plain_runtime) c
       (map Frame
          [[("method", JStr "turn/started"); ("params", JObj [("n", JInt 1)])];
           [("id", JStr "req_7"); ("result", JObj [])];
           [("note", JStr "raw")]])).1
  = [[("type", JStr "turn.started"); ("n", JInt 1)]; [("note", JStr "raw")]].
Proof.
  intros c.
  exact (frames_queued_in_arrival_order (H := Py.plain_runtime) c
           [[("method", JStr "turn/started"); ("params", JObj [("n", JInt 1)])];
            [("id", JStr "req_7"); ("result", JObj [])];
            [("note", JStr "raw")]] eq_refl eq_refl).
Defined.

Lemma consumer_gets_events_then_stops_witness :
  let c := start_read_loop (init (mk_transport true [])) in
  receive (H := Py.plain_runtime)
    (_message_send
       (read_loop (H := Py.plain_runtime) c
          (map Frame
             [[("method", JStr "turn/started");
               ("params", JObj [("n", JInt 1)])];
              [("note", JStr "raw")]]
           ++ [Finally])).1)
  = ([[("type", JStr "turn.started"); ("n", JInt 1)]; [("note", JStr "raw")]],
     Stream.Stopped).
Proof.
  intros c.
  exact (consumer_gets_events_then_stops (H := Py.plain_runtime) c
           [[("method", JStr "turn/started");
             ("params", JObj [("n", JInt 1)])];
            [("note", JStr "raw")]] eq_refl eq_refl eq_refl eq_refl).
Defined.

Lemma notification_becomes_event_witness :
  let message :=
    [("method", JStr "item/agentMessage/delta");
     ("params", JObj [("delta", JStr "Hi"); ("itemId", JStr "i1")])] in
  let event := _normalize_notification message in
  (forall key,
     key <> "type" ->
     Py.get key event
     = Py.get key [("delta", JStr "Hi"); ("itemId", JStr "i1")])
  /\ Py.get "type" event = JStr "item.agentMessage.delta"
  /\ Py.contains "item.agentMessage.delta" "/" = false.
Proof.
  intros message.
  exact (notification_becomes_event message
           [("delta", JStr "Hi"); ("itemId", JStr "i1")]
           "item/agentMessage/delta" eq_refl eq_refl).
Defined.

End RequestProps.

(* ===================================================================== *)
(** * [CodexSDKClient.receive_response] *)
(* ===================================================================== *)

Module ResponseProps.

Import SDKClient.

(** X30. [receive_response] passes on a prefix of the events of its
    stream.  When an event satisfies the final-event predicate, the first
    such event is the last one passed on, and it is passed on; when none
    does, every event of the stream is passed on. *)
Theorem response_stops_at_first_final {A : Type} (predicate : A -> bool)
    (stream : list A) :
  let yielded := receive_response predicate stream in
  (exists rest, stream = yielded ++ rest)
  /\ (forall before event after,
        stream = before ++ event :: after ->
        (forall e, In e before -> predicate e = false) ->
        predicate event = true ->
        yielded = before ++ [event])
  /\ ((forall e, In e stream -> predicate e = false) -> yielded = stream).
Proof.
  cbv zeta. induction stream as [|head stream (Hprefix & Hfirst & Hnone)].
  - repeat split.
    + exists []. reflexivity.
    + intros [|? ?] ? ? Heq; discriminate.
  - cbn [receive_response]. repeat split.
    + destruct (predicate head).
      * exists stream. reflexivity.
      * destruct Hprefix as [rest Hrest]. exists rest.
        cbn [app]. f_equal. exact Hrest.
    + intros [|b before] event after Heq Hbefore Hevent;
        cbn [app] in Heq; injection Heq as <- Hstream.
      * rewrite Hevent. reflexivity.
      * rewrite (Hbefore head) by (left; reflexivity).
        cbn [app]. f_equal.
        apply (Hfirst before event after Hstream); [|exact Hevent].
        intros e He. apply Hbefore. right. exact He.
    + intros Hall. rewrite (Hall head) by (left; reflexivity).
      f_equal. apply Hnone. intros e He. apply Hall. right. exact He.
Qed.

End ResponseProps.
